(** * blofin-proxy: a CORS forwarding relay in front of one upstream origin

    The repository holds two variants of the same Go program:
    - the simple server ([main.go]): routes ["/health"] and ["/"], handler
      [blofinProxy];
    - the optimized server: routes ["/health"], ["/metrics"] and ["/api/"],
      handler [blofinProxyOptimized], a shared client and a request counter.

    Both are embedded below as state-passing functions over a response
    writer, a log, the request counter and the list of upstream calls.
    The parts of the Go standard library the handlers call (strings,
    net/textproto, net/url, net/http's ServeMux, context) are modelled next
    to them; what the outside world decides (the upstream's answer, the
    clock, the process environment) is collected in a record [Env]. *)

From Stdlib Require Import ZArith NArith Ascii String.
From stdpp Require Import base option list strings gmap pretty.

Local Open Scope string_scope.

(** ** Package strings (byte level) *)

Module Strings.

Definition byte_in (lo hi : N) (c : ascii) : bool :=
  ((lo <=? N_of_ascii c) && (N_of_ascii c <=? hi))%N.

Definition isUpper (c : ascii) : bool := byte_in 65 90 c.
Definition isLower (c : ascii) : bool := byte_in 97 122 c.
Definition isDigit (c : ascii) : bool := byte_in 48 57 c.
Definition isLetter (c : ascii) : bool := isUpper c || isLower c.

Definition toLowerByte (c : ascii) : ascii :=
  if isUpper c then ascii_of_N (N_of_ascii c + 32) else c.

Definition toUpperByte (c : ascii) : ascii :=
  if isLower c then ascii_of_N (N_of_ascii c - 32) else c.

(** [strings.ToLower] on a string of ASCII bytes: upper-case letters are
    mapped to lower case, every other byte is kept.  HTTP field names,
    URL schemes and the literals of this program are ASCII; bytes from
    0x80 on are left as they are. *)
Fixpoint ToLower (s : string) : string :=
  match s with
  | EmptyString => EmptyString
  | String c s' => String (toLowerByte c) (ToLower s')
  end.

(** [strings.HasPrefix s prefix]. *)
Fixpoint HasPrefix (s prefix : string) {struct prefix} : bool :=
  match prefix with
  | EmptyString => true
  | String p prefix' =>
      match s with
      | EmptyString => false
      | String c s' => if Ascii.eqb c p then HasPrefix s' prefix' else false
      end
  end.

Arguments HasPrefix : simpl never.

(** [strings.Cut s sep] for a one-byte separator: the text before the
    first [sep], the text after it, and whether [sep] was found. *)
Fixpoint Cut (s : string) (sep : ascii) : string * string * bool :=
  match s with
  | EmptyString => (EmptyString, EmptyString, false)
  | String c s' =>
      if Ascii.eqb c sep then (EmptyString, s', true)
      else let '(before, after, found) := Cut s' sep in
           (String c before, after, found)
  end.

(** [strings.Contains s sep] and [strings.Count s sep], one-byte [sep]. *)
Fixpoint Count (s : string) (sep : ascii) : nat :=
  match s with
  | EmptyString => 0
  | String c s' => (if Ascii.eqb c sep then 1 else 0) + Count s' sep
  end.

Definition Contains (s : string) (sep : ascii) : bool :=
  negb (Nat.eqb (Count s sep) 0).

(** The last byte of [s], if any, and [s] without it. *)
Fixpoint lastByte (s : string) : option ascii :=
  match s with
  | EmptyString => None
  | String c EmptyString => Some c
  | String _ s' => lastByte s'
  end.

Fixpoint dropLast (s : string) : string :=
  match s with
  | EmptyString => EmptyString
  | String _ EmptyString => EmptyString
  | String c s' => String c (dropLast s')
  end.

(** [s[n:]], empty when [s] is shorter than [n]. *)
Fixpoint dropBytes (n : nat) (s : string) : string :=
  match n, s with
  | S n', String _ s' => dropBytes n' s'
  | _, _ => s
  end.

Fixpoint forallb (p : ascii -> bool) (s : string) : bool :=
  match s with
  | EmptyString => true
  | String c s' => p c && forallb p s'
  end.

Fixpoint existsb (p : ascii -> bool) (s : string) : bool :=
  match s with
  | EmptyString => false
  | String c s' => p c || existsb p s'
  end.

End Strings.

(** ** Package net/textproto: canonical header keys, and [http.Header] *)

Module Textproto.
Import Strings.

(** [validHeaderFieldByte]: the [tchar]s of RFC 7230, that is letters,
    digits and the bytes ! # $ % & ' * + - . ^ _ ` | ~ *)
Definition validHeaderFieldByte (c : ascii) : bool :=
  isLetter c || isDigit c ||
  existsb (Ascii.eqb c) "!#$%&'*+-.^_`|~".

(** The rewriting loop of [canonicalMIMEHeaderKey]: the first letter and
    every letter after a hyphen in upper case, every other letter in
    lower case.  [upper] is the loop's flag of the same name. *)
Fixpoint canonicalize (upper : bool) (s : string) : string :=
  match s with
  | EmptyString => EmptyString
  | String c s' =>
      let c' := if upper then toUpperByte c else toLowerByte c in
      String c' (canonicalize (Ascii.eqb c' "-") s')
  end.

(** [textproto.CanonicalMIMEHeaderKey]: a key with a byte that is not
    valid in a field name (a space included) is returned unchanged;
    any other key is rewritten by the loop above. *)
Definition CanonicalMIMEHeaderKey (s : string) : string :=
  if forallb validHeaderFieldByte s then canonicalize true s else s.

End Textproto.

(** [http.Header], that is [textproto.MIMEHeader], is [map[string][]string]. *)
Abbreviation MIMEHeader := (gmap string (list string)).

Module HeaderOps.
Import Textproto.

(** [h.Add(key, value)]: [h[k] = append(h[k], value)] at the canonical
    key [k]. *)
Definition Add (key value : string) (h : MIMEHeader) : MIMEHeader :=
  let k := CanonicalMIMEHeaderKey key in
  <[k := (default [] (h !! k) ++ [value])%list]> h.

(** [h.Set(key, value)]. *)
Definition Set_ (key value : string) (h : MIMEHeader) : MIMEHeader :=
  <[CanonicalMIMEHeaderKey key := [value]]> h.

(** [h.Get(key)]: the first value at the canonical key, or [""]. *)
Definition Get (key : string) (h : MIMEHeader) : string :=
  match h !! CanonicalMIMEHeaderKey key with
  | Some (v :: _) => v
  | _ => ""
  end.

(** [h.Values(key)]. *)
Definition Values (key : string) (h : MIMEHeader) : list string :=
  default [] (h !! CanonicalMIMEHeaderKey key).

End HeaderOps.

(** ** Package net/url *)

Module Url.
Import Strings.

(** The fields of [url.URL] this program reads or writes.  User
    information and the [RawPath]/[RawFragment] encoding hints are left
    out: nothing here depends on them. *)
Record URL := mkURL {
  Scheme : string;
  Opaque : string;
  Host : string;
  Path : string;
  ForceQuery : bool;
  RawQuery : string;
  Fragment : string;
  OmitHost : bool
}.

Definition set_RawQuery (q : string) (u : URL) : URL :=
  mkURL (Scheme u) (Opaque u) (Host u) (Path u) (ForceQuery u) q
        (Fragment u) (OmitHost u).

(** [stringContainsCTLByte]: a byte below 0x20, or 0x7f. *)
Definition isCTL (c : ascii) : bool :=
  (N_of_ascii c <? 32)%N || (N_of_ascii c =? 127)%N.

Definition stringContainsCTLByte (s : string) : bool := existsb isCTL s.

Definition ishex (c : ascii) : bool :=
  isDigit c || byte_in 97 102 c || byte_in 65 70 c.

Definition unhex (c : ascii) : N :=
  if isDigit c then N_of_ascii c - 48
  else if byte_in 97 102 c then N_of_ascii c - 97 + 10
  else if byte_in 65 70 c then N_of_ascii c - 65 + 10
  else 0.

(** [unescape s mode] for [mode] one of [encodePath], [encodeFragment]:
    each [%XY] becomes the byte it encodes, a [%] that is not followed
    by two hexadecimal digits is an [EscapeError], and every other byte
    (['+'] too) is kept. *)
Fixpoint unescape (s : string) : option string :=
  match s with
  | EmptyString => Some EmptyString
  | String c rest =>
      if Ascii.eqb c "%" then
        match rest with
        | String h1 (String h2 rest') =>
            if ishex h1 && ishex h2
            then String (ascii_of_N (16 * unhex h1 + unhex h2)) <$> unescape rest'
            else None
        | _ => None
        end
      else String c <$> unescape rest
  end.

(** [getScheme]: [Some (scheme, rest)], or [None] for the error
    "missing protocol scheme".  [i] is the loop index and [acc] holds
    [rawURL[:i]]. *)
Fixpoint getScheme_loop (rawURL : string) (acc : string) (i : nat) (s : string)
  : option (string * string) :=
  match s with
  | EmptyString => Some (EmptyString, rawURL)
  | String c s' =>
      if isLetter c then getScheme_loop rawURL (acc +:+ String c EmptyString) (S i) s'
      else if isDigit c || existsb (Ascii.eqb c) "+-." then
        match i with
        | O => Some (EmptyString, rawURL)
        | _ => getScheme_loop rawURL (acc +:+ String c EmptyString) (S i) s'
        end
      else if Ascii.eqb c ":" then
        match i with
        | O => None
        | _ => Some (acc, s')
        end
      else Some (EmptyString, rawURL)
  end.

Definition getScheme (rawURL : string) : option (string * string) :=
  getScheme_loop rawURL EmptyString 0 rawURL.

(** The bytes [unescape] accepts in a host: a non-ASCII byte, or an
    ASCII byte that [shouldEscape c encodeHost] lets through.  The colon
    and the brackets are left out here, see [parseAuthority]. *)
Definition plainHostByte (c : ascii) : bool :=
  (128 <=? N_of_ascii c)%N || isLetter c || isDigit c ||
  existsb (Ascii.eqb c) "!$&'()*+,;=<>-_.~" || (N_of_ascii c =? 34)%N.

(** [parseAuthority] for an authority that is a plain registered name.
    An authority with user information (['@']), a port ([':']), an IP
    literal (['['], [']']) or a percent escape is outside this model and
    is reported as an error; the one authority this program ever parses
    is the host of [BLOFIN_API_BASE]. *)
Definition parseAuthority (authority : string) : option string :=
  if forallb plainHostByte authority then Some authority else None.

(** The first path segment of a relative reference has a colon. *)
Definition firstSegmentHasColon (rest : string) : bool :=
  Contains (Cut rest "/").1.1 ":".

(** [parse rawURL false]. *)
Definition parse (rawURL : string) : option URL :=
  if stringContainsCTLByte rawURL then None
  else if String.eqb rawURL "*" then
    Some (mkURL "" "" "" "*" false "" "" false)
  else
    '(scheme, rest) ← getScheme rawURL;
    let scheme := ToLower scheme in
    let '(rest, forceQuery, rawQuery) :=
      if bool_decide (lastByte rest = Some "?"%char) && Nat.eqb (Count rest "?") 1
      then (dropLast rest, true, EmptyString)
      else let '(before, after, _) := Cut rest "?" in (before, false, after) in
    if negb (HasPrefix rest "/") && negb (String.eqb scheme "") then
      Some (mkURL scheme rest "" "" forceQuery rawQuery "" false)
    else if negb (HasPrefix rest "/") && firstSegmentHasColon rest then None
    else if (negb (String.eqb scheme "") || negb (HasPrefix rest "///"))
            && HasPrefix rest "//" then
      let '(authority, tail, found) := Cut (dropBytes 2 rest) "/" in
      let rest' := if found then String "/" tail else EmptyString in
      host ← parseAuthority authority;
      path ← unescape rest';
      Some (mkURL scheme "" host path forceQuery rawQuery "" false)
    else
      let omitHost := negb (String.eqb scheme "") && HasPrefix rest "/" in
      path ← unescape rest;
      Some (mkURL scheme "" "" path forceQuery rawQuery "" omitHost).

(** [url.Parse]: the fragment is cut off at the first ['#'] and
    unescaped on its own. *)
Definition Parse (rawURL : string) : option URL :=
  let '(u, frag, _) := Cut rawURL "#" in
  url ← parse u;
  fragment ← unescape frag;
  Some (mkURL (Scheme url) (Opaque url) (Host url) (Path url)
              (ForceQuery url) (RawQuery url) fragment (OmitHost url)).

End Url.

(** ** Package path, and net/http's [cleanPath] *)

Module PathPkg.
Import Strings.

(** The path elements between slashes: [split "a//b/"] is
    ["a"; ""; "b"; ""]. *)
Fixpoint split (s : string) : list string :=
  match s with
  | EmptyString => [EmptyString]
  | String c s' =>
      if Ascii.eqb c "/" then EmptyString :: split s'
      else match split s' with
           | seg :: segs => String c seg :: segs
           | [] => [String c EmptyString]
           end
  end.

(** One step of [path.Clean] on a rooted path; [out] holds the elements
    written so far, last one first.  An empty element and ["."] are
    dropped, [".."] removes the last element written (and is dropped at
    the root), any other element is written. *)
Definition cleanStep (out : list string) (seg : string) : list string :=
  if String.eqb seg "" then out
  else if String.eqb seg "." then out
  else if String.eqb seg ".." then tail out
  else seg :: out.

Fixpoint join (segs : list string) : string :=
  match segs with
  | [] => EmptyString
  | seg :: segs' => "/" +:+ seg +:+ join segs'
  end.

(** [path.Clean p] for a rooted [p] (one that begins with a slash). *)
Definition CleanRooted (p : string) : string :=
  match rev (fold_left cleanStep (split (dropBytes 1 p)) []) with
  | [] => "/"
  | segs => join segs
  end.

(** net/http's [cleanPath]: the canonical path, a trailing slash kept. *)
Definition cleanPath (p : string) : string :=
  if String.eqb p "" then "/"
  else
    let p := if HasPrefix p "/" then p else "/" +:+ p in
    let np := CleanRooted p in
    if bool_decide (lastByte p = Some "/"%char) && negb (String.eqb np "/")
    then np +:+ "/"
    else np.

End PathPkg.

(** ** Package context *)

Module Context.

(** A context as the forwarder sees it: the cancellation signals that end
    it (its own and its ancestors') and its deadline, in nanoseconds
    since the epoch. *)
Record Context := mkContext {
  Signals : list nat;
  Deadline : option Z
}.

Definition Background : Context := mkContext [] None.

(** [context.WithDeadline parent d]: the child ends when the parent
    does, and at [d] if the parent has no earlier deadline. *)
Definition WithDeadline (parent : Context) (d : Z) : Context :=
  mkContext (Signals parent)
            (Some (match Deadline parent with
                   | Some p => Z.min p d
                   | None => d
                   end)).

(** [context.WithTimeout parent timeout] called at time [now]. *)
Definition WithTimeout (now : Z) (parent : Context) (timeout : Z) : Context :=
  WithDeadline parent (now + timeout).

(** [ctx.Done()] is closed at time [t] when the signals [fired] have
    been raised. *)
Definition Done (fired : nat -> bool) (t : Z) (ctx : Context) : bool :=
  List.existsb fired (Signals ctx) ||
  match Deadline ctx with
  | Some d => (d <=? t)%Z
  | None => false
  end.

End Context.

(** [time.Second], in nanoseconds. *)
Definition Second : Z := 1000000000.

(** ** Package net/http: requests, responses, the response writer *)

(** The double quote and the line feed, for the texts the handlers print. *)
Definition DQ : string := String (ascii_of_N 34) EmptyString.
Definition LF : string := String (ascii_of_N 10) EmptyString.

Module Http.
Import Strings HeaderOps.

(** [http.Request], inbound and outbound alike.  [Body] holds the bytes of
    the body stream. *)
Record Request := mkRequest {
  Method : string;
  URL : Url.URL;
  ProtoMajor : Z;
  ProtoMinor : Z;
  Header : MIMEHeader;
  Body : string;
  Host : string;
  RequestURI : string;
  Ctx : Context.Context
}.

Definition set_Header (h : MIMEHeader) (r : Request) : Request :=
  mkRequest (Method r) (URL r) (ProtoMajor r) (ProtoMinor r) h (Body r) (Host r)
            (RequestURI r) (Ctx r).

(** [r.ProtoAtLeast(major, minor)]. *)
Definition ProtoAtLeast (major minor : Z) (r : Request) : bool :=
  (major <? ProtoMajor r)%Z || ((ProtoMajor r =? major)%Z && (minor <=? ProtoMinor r)%Z).

(** [http.Response] as [client.Do] returns it.  [RespBody] holds the bytes
    [io.Copy] gets out of the body stream, and [CopyErr] the error that ended
    the copy, if one did. *)
Record Response := mkResponse {
  StatusCode : Z;
  RespHeader : MIMEHeader;
  RespBody : string;
  CopyErr : option string
}.

Inductive DoResult :=
| DoOk (resp : Response)
| DoErr (err : string).

Record Client := mkClient { Timeout : Z }.

(** [http.ResponseWriter]: the live header map [w.Header()], the status line
    once written (with the header map as it was then, which is what the
    client receives), and the body bytes written. *)
Record ResponseWriter := mkWriter {
  WHeader : MIMEHeader;
  Wrote : option (Z * MIMEHeader);
  Written : string
}.

Definition newWriter : ResponseWriter := mkWriter ∅ None EmptyString.

Definition StatusOK : Z := 200.
Definition StatusMovedPermanently : Z := 301.
Definition StatusBadRequest : Z := 400.
Definition StatusNotFound : Z := 404.
Definition StatusInternalServerError : Z := 500.
Definition StatusBadGateway : Z := 502.

(** [w.WriteHeader(code)]; a second call changes nothing. *)
Definition WriteHeader (code : Z) (w : ResponseWriter) : ResponseWriter :=
  match Wrote w with
  | Some _ => w
  | None => mkWriter (WHeader w) (Some (code, WHeader w)) (Written w)
  end.

(** [w.Write(data)], which writes the status line 200 first if none was
    written. *)
Definition Write (data : string) (w : ResponseWriter) : ResponseWriter :=
  let w := WriteHeader StatusOK w in
  mkWriter (WHeader w) (Wrote w) (Written w +:+ data).

Definition setHeader (key value : string) (w : ResponseWriter) : ResponseWriter :=
  mkWriter (Set_ key value (WHeader w)) (Wrote w) (Written w).

(** [http.Error(w, error, code)]. *)
Definition Error (error : string) (code : Z) (w : ResponseWriter) : ResponseWriter :=
  let w := setHeader "Content-Type" "text/plain; charset=utf-8" w in
  let w := setHeader "X-Content-Type-Options" "nosniff" w in
  let w := WriteHeader code w in
  Write (error +:+ LF) w.

(** [http.NotFound(w, r)]. *)
Definition NotFound (w : ResponseWriter) : ResponseWriter :=
  Error "404 page not found" StatusNotFound w.

(** [validMethod]: a non-empty token. *)
Definition validMethod (method : string) : bool :=
  negb (String.eqb method "") && forallb Textproto.validHeaderFieldByte method.

(** [http.NewRequestWithContext(ctx, method, url, body)].  The host of the
    parsed URL has no port in this model, so [removeEmptyPort] leaves it as
    it is. *)
Definition NewRequestWithContext (ctx : Context.Context) (method url body : string)
  : option Request :=
  let method := if String.eqb method "" then "GET" else method in
  if negb (validMethod method) then None
  else
    u ← Url.Parse url;
    Some (mkRequest method u 1 1 ∅ body (Url.Host u) EmptyString ctx).

(** [http.NewRequest(method, url, body)]. *)
Definition NewRequest (method url body : string) : option Request :=
  NewRequestWithContext Context.Background method url body.

(** What the client receives: status, header and body.  When the handler
    returns without having written a status line, the server writes 200. *)
Definition finishRequest (w : ResponseWriter) : ResponseWriter :=
  WriteHeader StatusOK w.

End Http.

(** ** The world around a handler *)

(** A [for ... range] loop over a header map visits the entries in an order
    the language leaves open; the two loops of the forwarder are told apart. *)
Inductive RangeLoop := ForwardLoop | RelayLoop.

(** What the handlers take from outside the program. *)
Record Env := mkEnv {
  (** [os.Getenv] *)
  Getenv : string -> string;
  (** [time.Now()], in nanoseconds since the epoch *)
  Now : Z;
  (** [time.Now().UTC().Format(time.RFC3339)] *)
  Timestamp : string;
  (** [runtime.NumGoroutine()] *)
  NumGoroutine : Z;
  (** the text the /metrics handler prints for a given request count *)
  MetricsText : Z -> string;
  (** [client.Do]: the transport and the upstream origin *)
  Do : Http.Client -> Http.Request -> Http.DoResult;
  (** [u.String()] *)
  URLString : Url.URL -> string;
  (** net/http's [stripHostPort] *)
  stripHostPort : string -> string;
  (** the Location header and the body [http.Redirect] writes for a target *)
  RedirectLocation : Url.URL -> string;
  RedirectBody : Url.URL -> string;
  (** the order in which a [range] loop visits a header map *)
  Range : RangeLoop -> MIMEHeader -> list (string * list string);
  Range_perm : forall loop h, Range loop h ≡ₚ map_to_list h
}.

(** The state a request runs in: the response writer, the shared request
    counter, the log, and the upstream calls made so far. *)
Record State := mkState {
  W : Http.ResponseWriter;
  requestCount : Z;
  Log : list string;
  Calls : list (Http.Client * Http.Request)
}.

Definition onWriter (f : Http.ResponseWriter -> Http.ResponseWriter) (s : State) : State :=
  mkState (f (W s)) (requestCount s) (Log s) (Calls s).

(** [log.Printf], the message without the logger's prefix. *)
Definition log_Printf (msg : string) (s : State) : State :=
  mkState (W s) (requestCount s) (Log s ++ [msg]) (Calls s).

Definition recordCall (c : Http.Client) (req : Http.Request) (s : State) : State :=
  mkState (W s) (requestCount s) (Log s) (Calls s ++ [(c, req)]).

(** [requestCount++] on an [int64]. *)
Definition wrap64 (z : Z) : Z := ((z + 2^63) mod 2^64 - 2^63)%Z.

Definition incrRequestCount (s : State) : State :=
  mkState (W s) (wrap64 (requestCount s + 1)) (Log s) (Calls s).

Definition Handler : Type := Http.Request -> State -> State.

(** ** net/http's [ServeMux] and the server's dispatch *)

Module Mux.
Import Strings Http.

Record muxEntry := mkEntry { pattern : string; h : Handler }.

Record ServeMux := mkMux {
  m : gmap string muxEntry;
  es : list muxEntry;   (* the patterns that end in a slash, longest first *)
  hosts : bool          (* some pattern does not begin with a slash *)
}.

Definition DefaultServeMux : ServeMux := mkMux ∅ [] false.

Fixpoint appendSorted (es : list muxEntry) (e : muxEntry) : list muxEntry :=
  match es with
  | [] => [e]
  | x :: es' =>
      if (String.length (pattern x) <? String.length (pattern e))%nat
      then e :: x :: es'
      else x :: appendSorted es' e
  end.

(** [mux.HandleFunc(pattern, handler)].  The registrations of this program
    are distinct and non-empty, so the panics of [Handle] do not arise. *)
Definition HandleFunc (pat : string) (handler : Handler) (mux : ServeMux) : ServeMux :=
  let e := mkEntry pat handler in
  mkMux (<[pat := e]> (m mux))
        (if bool_decide (lastByte pat = Some "/"%char) then appendSorted (es mux) e
         else es mux)
        (hosts mux || negb (HasPrefix pat "/")).

(** [mux.match(path)]: an exact match, else the longest pattern ending in a
    slash that is a prefix of [path]. *)
Definition match_ (mux : ServeMux) (path : string) : option muxEntry :=
  match m mux !! path with
  | Some v => Some v
  | None => List.find (fun e => HasPrefix path (pattern e)) (es mux)
  end.

(** [http.NotFoundHandler()]. *)
Definition NotFoundHandler : Handler := fun _ s => onWriter NotFound s.

(** [mux.handler(host, path)]. *)
Definition handler (mux : ServeMux) (host path : string) : Handler :=
  let byHost := if hosts mux then match_ mux (host +:+ path) else None in
  match byHost with
  | Some e => h e
  | None =>
      match match_ mux path with
      | Some e => h e
      | None => NotFoundHandler
      end
  end.

(** [mux.shouldRedirectRLocked(host, path)]. *)
Definition shouldRedirectRLocked (mux : ServeMux) (host path : string) : bool :=
  let p := [path; host +:+ path] in
  if List.existsb (fun c => bool_decide (is_Some (m mux !! c))) p then false
  else if String.eqb path "" then false
  else if List.existsb (fun c => bool_decide (is_Some (m mux !! (c +:+ "/")))) p
       then negb (bool_decide (lastByte path = Some "/"%char))
       else false.

Section WithEnv.
Context (E : Env).

(** [http.Redirect(w, r, url, code)] for the target [u] the mux built. *)
Definition Redirect (r : Request) (u : Url.URL) (code : Z) (w : ResponseWriter)
  : ResponseWriter :=
  let hadCT := bool_decide (is_Some (WHeader w !! "Content-Type")) in
  let w := setHeader "Location" (RedirectLocation E u) w in
  let w := if negb hadCT && (String.eqb (Method r) "GET" || String.eqb (Method r) "HEAD")
           then setHeader "Content-Type" "text/html; charset=utf-8" w else w in
  let w := WriteHeader code w in
  if negb hadCT && String.eqb (Method r) "GET" then Write (RedirectBody E u) w else w.

(** [http.RedirectHandler(u.String(), code)]. *)
Definition RedirectHandler (u : Url.URL) (code : Z) : Handler :=
  fun r s => onWriter (Redirect r u code) s.

Definition redirectURL (path rawQuery : string) : Url.URL :=
  Url.mkURL "" "" "" path false rawQuery "" false.

(** [mux.Handler(r)]. *)
Definition Handler_ (mux : ServeMux) (r : Request) : Handler :=
  if String.eqb (Method r) "CONNECT" then
    if shouldRedirectRLocked mux (Url.Host (URL r)) (Url.Path (URL r)) then
      RedirectHandler (redirectURL (Url.Path (URL r) +:+ "/") (Url.RawQuery (URL r)))
                      StatusMovedPermanently
    else handler mux (Host r) (Url.Path (URL r))
  else
    let host := stripHostPort E (Host r) in
    let path := PathPkg.cleanPath (Url.Path (URL r)) in
    if shouldRedirectRLocked mux host path then
      RedirectHandler (redirectURL (path +:+ "/") (Url.RawQuery (URL r)))
                      StatusMovedPermanently
    else if negb (String.eqb path (Url.Path (URL r))) then
      RedirectHandler (redirectURL path (Url.RawQuery (URL r))) StatusMovedPermanently
    else handler mux host (Url.Path (URL r)).

(** [mux.ServeHTTP(w, r)]. *)
Definition ServeHTTP (mux : ServeMux) : Handler :=
  fun r s =>
    if String.eqb (RequestURI r) "*" then
      let s := if ProtoAtLeast 1 1 r
               then onWriter (setHeader "Connection" "close") s else s in
      onWriter (WriteHeader StatusBadRequest) s
    else Handler_ mux r r s.

(** The server's [globalOptionsHandler]. *)
Definition globalOptionsHandler : Handler :=
  fun _ s => onWriter (setHeader "Content-Length" "0") s.

(** [serverHandler.ServeHTTP] for a server whose [Handler] is nil, followed
    by the end of the response. *)
Definition serverHandler (mux : ServeMux) : Handler :=
  fun r s =>
    let s :=
      if String.eqb (RequestURI r) "*" && String.eqb (Method r) "OPTIONS"
      then globalOptionsHandler r s
      else ServeHTTP mux r s in
    onWriter finishRequest s.

End WithEnv.
End Mux.

(** ** The program *)

Definition BLOFIN_API_BASE : string := "https://openapi.blofin.com".

Definition hopByHopHeaders : list string :=
  [ "Connection"; "Keep-Alive"; "Proxy-Authenticate"; "Proxy-Authorization";
    "Te"; "Trailers"; "Transfer-Encoding"; "Upgrade" ].

(** [isHopByHopHeader], the same in both variants. *)
Definition isHopByHopHeader (header : string) : bool :=
  let header := Strings.ToLower header in
  List.existsb (fun h => String.eqb (Strings.ToLower h) header) hopByHopHeaders.

(** The two header loops have the same body,
    [for name, values := range src { if isHopByHopHeader(name) { continue };
       for _, value := range values { dst.Add(name, value) } }].
    [addAll] is the inner loop, [copyEntry] one round of the outer loop, and
    [copyHeaders] the outer loop over the entries in the order of the visit. *)
Definition addAll (name : string) (values : list string) (dst : MIMEHeader) : MIMEHeader :=
  fold_left (fun dst value => HeaderOps.Add name value dst) values dst.

Definition copyEntry (dst : MIMEHeader) (entry : string * list string) : MIMEHeader :=
  if isHopByHopHeader entry.1 then dst else addAll entry.1 entry.2 dst.

Definition copyHeaders (entries : list (string * list string)) (dst : MIMEHeader)
  : MIMEHeader :=
  fold_left copyEntry entries dst.

(** The entries whose values the loop writes under the key [k]. *)
Definition feeds (k : string) (entry : string * list string) : bool :=
  negb (isHopByHopHeader entry.1) &&
  bool_decide (Textproto.CanonicalMIMEHeaderKey entry.1 = k).

(** The target URL, built the same way by both forwarders: the full request
    path, "/api" prefix included, is appended to the base and parsed
    ([url.Parse(BLOFIN_API_BASE + r.URL.Path)], [None] when that fails), and
    the raw query is then copied ([targetURL.RawQuery = r.URL.RawQuery]). *)
Definition targetURL (r : Http.Request) : option Url.URL :=
  let apiPath := Url.Path (Http.URL r) in
  u ← Url.Parse (BLOFIN_API_BASE +:+ apiPath);
  Some (Url.set_RawQuery (Url.RawQuery (Http.URL r)) u).

Definition AllowMethods : string := "GET, POST, PUT, PATCH, DELETE, OPTIONS".
Definition AllowHeaders : string :=
  "Content-Type, Authorization, ACCESS-KEY, ACCESS-SIGN, ACCESS-TIMESTAMP, ACCESS-NONCE, ACCESS-PASSPHRASE, BROKER-ID".

(** [corsMiddleware], the same in both variants. *)
Definition corsMiddleware (next : Handler) : Handler :=
  fun r s =>
    let s := onWriter (Http.setHeader "Access-Control-Allow-Origin" "*") s in
    let s := onWriter (Http.setHeader "Access-Control-Allow-Methods" AllowMethods) s in
    let s := onWriter (Http.setHeader "Access-Control-Allow-Headers" AllowHeaders) s in
    let s := onWriter (Http.setHeader "Access-Control-Max-Age" "86400") s in
    if String.eqb (Http.Method r) "OPTIONS" then onWriter (Http.WriteHeader Http.StatusOK) s
    else next r s.

(** The relay of an upstream response, up to [io.Copy]: the headers but the
    hop-by-hop ones, the status, the body. *)
Definition relayResponse (E : Env) (resp : Http.Response) (w : Http.ResponseWriter)
  : Http.ResponseWriter :=
  let w := Http.mkWriter (copyHeaders (Range E RelayLoop (Http.RespHeader resp)) (Http.WHeader w))
                         (Http.Wrote w) (Http.Written w) in
  let w := Http.WriteHeader (Http.StatusCode resp) w in
  Http.Write (Http.RespBody resp) w.

Definition jsonString (s : string) : string := DQ +:+ s +:+ DQ.

(** The outbound request a forwarder hands to [client.Do], when it gets that
    far: the target URL is built, the request is created with the context
    [ctx], and the headers are copied.  [None] when the forwarder answers 400
    or 500 instead. *)
Definition outbound (E : Env) (ctx : Context.Context) (r : Http.Request)
  : option Http.Request :=
  u ← targetURL r;
  q ← Http.NewRequestWithContext ctx (Http.Method r) (URLString E u) (Http.Body r);
  Some (Http.set_Header (copyHeaders (Range E ForwardLoop (Http.Header r)) (Http.Header q)) q).

(** *** The simple variant ([main.go]) *)

Module Simple.
Import Http.

Section WithEnv.
Context (E : Env).

Definition healthHandler : Handler :=
  fun _ s =>
    let s := onWriter (setHeader "Content-Type" "application/json") s in
    onWriter (Write ("{" +:+ jsonString "status" +:+ ":" +:+ jsonString "ok" +:+ ","
                     +:+ jsonString "timestamp" +:+ ":" +:+ jsonString (Timestamp E) +:+ "}")) s.

Definition blofinProxy : Handler :=
  fun r s =>
    match targetURL r with
    | None => onWriter (Error "Invalid URL" StatusBadRequest) s
    | Some targetURL =>
        match NewRequest (Method r) (URLString E targetURL) (Body r) with
        | None => onWriter (Error "Failed to create proxy request" StatusInternalServerError) s
        | Some proxyReq =>
            let proxyReq :=
              set_Header (copyHeaders (Range E ForwardLoop (Header r)) (Header proxyReq))
                         proxyReq in
            let client := mkClient (30 * Second) in
            let s := recordCall client proxyReq s in
            match Do E client proxyReq with
            | DoErr err =>
                let s := log_Printf ("❌ Proxy request failed: " +:+ err) s in
                onWriter (Error "Proxy request failed" StatusBadGateway) s
            | DoOk resp =>
                let s := onWriter (relayResponse E resp) s in
                let s := match CopyErr resp with
                         | Some err => log_Printf ("❌ Failed to copy response body: " +:+ err) s
                         | None => s
                         end in
                log_Printf ("🔗 " +:+ Method r +:+ " " +:+ Url.Path (URL r) +:+ " -> "
                            +:+ URLString E targetURL +:+ " (Status: "
                            +:+ pretty (StatusCode resp) +:+ ")") s
            end
        end
    end.

Definition rootHandler : Handler :=
  fun r s =>
    if String.eqb (Url.Path (URL r)) "/" then
      let s := onWriter (setHeader "Content-Type" "application/json") s in
      onWriter (Write ("{" +:+ jsonString "message" +:+ ":" +:+ jsonString "Blofin CORS Proxy" +:+ ","
                       +:+ jsonString "version" +:+ ":" +:+ jsonString "1.0" +:+ ","
                       +:+ jsonString "endpoints" +:+ ":[" +:+ jsonString "/health" +:+ ","
                       +:+ jsonString "/api/*" +:+ "],"
                       +:+ jsonString "timestamp" +:+ ":" +:+ jsonString (Timestamp E) +:+ "}")) s
    else if Strings.HasPrefix (Url.Path (URL r)) "/api/" then
      let s := log_Printf ("🔍 API route detected: " +:+ Url.Path (URL r)) s in
      blofinProxy r s
    else onWriter NotFound s.

(** The registrations of [main], in its order. *)
Definition mux : Mux.ServeMux :=
  Mux.HandleFunc "/" (corsMiddleware rootHandler)
    (Mux.HandleFunc "/health" (corsMiddleware healthHandler) Mux.DefaultServeMux).

(** [http.ListenAndServe(":"+port, nil)] answering one request. *)
Definition serve : Handler := Mux.serverHandler E mux.

End WithEnv.
End Simple.

(** *** The optimized variant *)

Module Optimized.
Import Http.

(** The shared client [init] builds; of its fields only [Timeout] matters
    to what a single request observes. *)
Definition httpClient : Client := mkClient (30 * Second).

Section WithEnv.
Context (E : Env).

Definition healthHandler : Handler :=
  fun _ s =>
    let count := requestCount s in
    let s := onWriter (setHeader "Content-Type" "application/json") s in
    onWriter (Write ("{" +:+ jsonString "status" +:+ ":" +:+ jsonString "ok" +:+ ","
                     +:+ jsonString "timestamp" +:+ ":" +:+ jsonString (Timestamp E) +:+ ","
                     +:+ jsonString "requests_served" +:+ ":" +:+ pretty count +:+ ","
                     +:+ jsonString "goroutines" +:+ ":" +:+ pretty (NumGoroutine E) +:+ "}")) s.

Definition metricsHandler : Handler :=
  fun _ s =>
    let s := onWriter (setHeader "Content-Type" "application/json") s in
    onWriter (Write (MetricsText E (requestCount s))) s.

Definition blofinProxyOptimized : Handler :=
  fun r s =>
    (* Increment request counter *)
    let s := incrRequestCount s in
    match targetURL r with
    | None => onWriter (Error "Invalid URL" StatusBadRequest) s
    | Some targetURL =>
        let ctx := Context.WithTimeout (Now E) (Ctx r) (25 * Second) in
        match NewRequestWithContext ctx (Method r) (URLString E targetURL) (Body r) with
        | None => onWriter (Error "Failed to create proxy request" StatusInternalServerError) s
        | Some proxyReq =>
            let proxyReq :=
              set_Header (copyHeaders (Range E ForwardLoop (Header r)) (Header proxyReq))
                         proxyReq in
            let s := recordCall httpClient proxyReq s in
            match Do E httpClient proxyReq with
            | DoErr err =>
                let s := if String.eqb (Getenv E "DEBUG") "true"
                         then log_Printf ("❌ Proxy request failed: " +:+ err) s
                         else s in
                onWriter (Error "Proxy request failed" StatusBadGateway) s
            | DoOk resp =>
                let s := onWriter (relayResponse E resp) s in
                match CopyErr resp with
                | Some err =>
                    if String.eqb (Getenv E "DEBUG") "true"
                    then log_Printf ("❌ Failed to copy response body: " +:+ err) s
                    else s
                | None => s
                end
            end
        end
    end.

(** The registrations of [main], in its order. *)
Definition mux : Mux.ServeMux :=
  Mux.HandleFunc "/api/" (corsMiddleware blofinProxyOptimized)
    (Mux.HandleFunc "/metrics" (corsMiddleware metricsHandler)
       (Mux.HandleFunc "/health" (corsMiddleware healthHandler) Mux.DefaultServeMux)).

(** [server.ListenAndServe()] answering one request. *)
Definition serve : Handler := Mux.serverHandler E mux.

End WithEnv.
End Optimized.

(** ** A concrete world, for running the handlers on examples *)

Module Sample.
Import Http.

Definition urlString (u : Url.URL) : string :=
  Url.Scheme u +:+ "://" +:+ Url.Host u +:+ Url.Path u +:+
  (if String.eqb (Url.RawQuery u) "" then "" else "?" +:+ Url.RawQuery u).

Definition locationString (u : Url.URL) : string :=
  Url.Path u +:+ (if String.eqb (Url.RawQuery u) "" then "" else "?" +:+ Url.RawQuery u).

Definition upstreamError : string := "dial tcp 203.0.113.7:443: i/o timeout".

Definition upstreamResponse : Response :=
  mkResponse 200
    (<["Content-Type" := ["application/json"]]>
       (<["Transfer-Encoding" := ["chunked"]]>
          (<["Connection" := ["keep-alive"]]> ∅)))
    "{}" None.

(** An upstream that answers every call with [upstreamResponse]. *)
Definition up (debug : string) : Env :=
  mkEnv (fun k => if String.eqb k "DEBUG" then debug else "")
        1700000000000000000 "2023-11-14T22:13:20Z" 4 (fun _ => "{}")
        (fun _ _ => DoOk upstreamResponse)
        urlString (fun h => h) locationString (fun _ => "")
        (fun _ h => map_to_list h) (fun _ h => reflexivity _).

(** An upstream that cannot be reached. *)
Definition down (debug : string) : Env :=
  mkEnv (fun k => if String.eqb k "DEBUG" then debug else "")
        1700000000000000000 "2023-11-14T22:13:20Z" 4 (fun _ => "{}")
        (fun _ _ => DoErr upstreamError)
        urlString (fun h => h) locationString (fun _ => "")
        (fun _ h => map_to_list h) (fun _ h => reflexivity _).

(** An upstream that answers with a response of its choice. *)
Definition answering (resp : Response) : Env :=
  mkEnv (fun _ => "")
        1700000000000000000 "2023-11-14T22:13:20Z" 4 (fun _ => "{}")
        (fun _ _ => DoOk resp)
        urlString (fun h => h) locationString (fun _ => "")
        (fun _ h => map_to_list h) (fun _ h => reflexivity _).

(** A response with an allow-origin header of the upstream's own. *)
Definition originResponse : Response :=
  mkResponse 200 (<["Access-Control-Allow-Origin" := ["https://app.example"]]> ∅) "{}" None.

(** A response whose body breaks off during the copy. *)
Definition brokenResponse : Response :=
  mkResponse 200 ∅ "{" (Some "unexpected EOF").

Definition request (method path rawQuery : string) (hdr : MIMEHeader) : Request :=
  mkRequest method (Url.mkURL "" "" "" path false rawQuery "" false) 1 1 hdr ""
            "proxy.example" (path +:+ (if String.eqb rawQuery "" then "" else "?" +:+ rawQuery))
            (Context.mkContext [1%nat] None).

Definition start : State := mkState newWriter 0 [] [].

Definition statusOf (s : State) : option Z := fst <$> Wrote (W s).

Definition sentHeader (key : string) (s : State) : option (list string) :=
  '(_, hdr) ← Wrote (W s); hdr !! key.

End Sample.

(** ** Vocabulary of the statements *)

(** What the client is sent, by outcome.  It is the same for both
    forwarders but for the client and the context of the call. *)
Definition answer (E : Env) (c : Http.Client) (ctx : Context.Context) (r : Http.Request)
  (w : Http.ResponseWriter) : Http.ResponseWriter :=
  match targetURL r with
  | None => Http.Error "Invalid URL" Http.StatusBadRequest w
  | Some u =>
      match outbound E ctx r with
      | None => Http.Error "Failed to create proxy request" Http.StatusInternalServerError w
      | Some q =>
          match Do E c q with
          | Http.DoErr _ => Http.Error "Proxy request failed" Http.StatusBadGateway w
          | Http.DoOk resp => relayResponse E resp w
          end
      end
  end.

(** A string free of the bytes that change how a URL is read: control
    bytes, and the delimiters ['#'], ['?'] and ['%']. *)
Definition urlSafeByte (c : ascii) : bool :=
  negb (Url.isCTL c) && negb (Ascii.eqb c "#") && negb (Ascii.eqb c "?")
  && negb (Ascii.eqb c "%").

Definition urlSafe (s : string) : bool := Strings.forallb urlSafeByte s.

(** The two forwarders side by side: the handler, the client it calls
    with, and the context it gives the outbound request. *)
Inductive Variant := SimpleV | OptimizedV.

Definition forwarder (v : Variant) (E : Env) : Handler :=
  match v with
  | SimpleV => Simple.blofinProxy E
  | OptimizedV => Optimized.blofinProxyOptimized E
  end.

Definition clientOf (v : Variant) : Http.Client :=
  match v with
  | SimpleV => Http.mkClient (30 * Second)
  | OptimizedV => Optimized.httpClient
  end.

Definition contextOf (v : Variant) (E : Env) (r : Http.Request) : Context.Context :=
  match v with
  | SimpleV => Context.Background
  | OptimizedV => Context.WithTimeout (Now E) (Http.Ctx r) (25 * Second)
  end.

(** The handler each [main] registers for the paths that lead to its
    forwarder: the simple variant reaches it through the handler of "/",
    the optimized variant registers it for "/api/". *)
Definition registered (v : Variant) (E : Env) : Handler :=
  match v with
  | SimpleV => corsMiddleware (Simple.rootHandler E)
  | OptimizedV => corsMiddleware (Optimized.blofinProxyOptimized E)
  end.

(** The canonical form of a header key, as a test: no lower-case letter at
    the start or after a hyphen, no upper-case letter anywhere else. *)
Fixpoint canonicalShape (upper : bool) (s : string) : bool :=
  match s with
  | EmptyString => true
  | String c s' =>
      (if upper then negb (Strings.isLower c) else negb (Strings.isUpper c))
      && canonicalShape (Ascii.eqb c "-") s'
  end.


(** The status the client is sent, if the writer has sent one. *)
Definition statusSent (w : Http.ResponseWriter) : option Z := fst <$> Http.Wrote w.

(** The header map the client is sent. *)
Definition headerSent (w : Http.ResponseWriter) : option MIMEHeader := snd <$> Http.Wrote w.

(** The line either forwarder logs for a failed call. *)
Definition failureLine (err : string) : string := "❌ Proxy request failed: " +:+ err.

(** A property of header maps holds of what the writer has sent, and of its
    live map. *)
Definition sent (Q : MIMEHeader -> Prop) (w : Http.ResponseWriter) : Prop :=
  Q (Http.WHeader w) /\ forall code hdr, Http.Wrote w = Some (code, hdr) -> Q hdr.

(** The key [k] is absent. *)
Definition lacks (k : string) (h : MIMEHeader) : Prop := h !! k = None.

(** The four headers of the cross-origin policy are present with the
    values [corsMiddleware] gives them. *)
Definition corsIn (h : MIMEHeader) : Prop :=
  HeaderOps.Get "Access-Control-Allow-Origin" h = "*" /\
  HeaderOps.Get "Access-Control-Allow-Methods" h = AllowMethods /\
  HeaderOps.Get "Access-Control-Allow-Headers" h = AllowHeaders /\
  HeaderOps.Get "Access-Control-Max-Age" h = "86400".

(** What [corsMiddleware] does to the writer of an OPTIONS request. *)
Definition preflight (w : Http.ResponseWriter) : Http.ResponseWriter :=
  Http.WriteHeader Http.StatusOK
    (Http.setHeader "Access-Control-Max-Age" "86400"
       (Http.setHeader "Access-Control-Allow-Headers" AllowHeaders
          (Http.setHeader "Access-Control-Allow-Methods" AllowMethods
             (Http.setHeader "Access-Control-Allow-Origin" "*" w)))).

(** The step from [s] to [s'] made no upstream call and left the request
    counter alone. *)
Definition quiet (s s' : State) : Prop :=
  Calls s' = Calls s /\ requestCount s' = requestCount s.

(** The response carries the cross-origin headers. *)
Definition carriesCORS (w : Http.ResponseWriter) : Prop :=
  exists code hdr, Http.Wrote w = Some (code, hdr) /\ corsIn hdr.

(** A property of header maps that the writes of the handlers keep: setting
    the two headers of [http.Error] and of the JSON answers, and the copy
    loop. *)
Class HeaderInv (Q : MIMEHeader -> Prop) : Prop := {
  hinv_Set key value h :
    key = "Content-Type" \/ key = "X-Content-Type-Options" ->
    Q h -> Q (HeaderOps.Set_ key value h);
  hinv_copy entries h : Q h -> Q (copyHeaders entries h)
}.

(** * Properties *)

Local Open Scope list_scope.

(** ** The models of the library at work *)

Example Parse_tickers :
  Url.Parse "https://openapi.blofin.com/api/v1/market/tickers?instId=BTC-USDT"
  = Some (Url.mkURL "https" "" "openapi.blofin.com" "/api/v1/market/tickers"
                    false "instId=BTC-USDT" "" false).
Proof. reflexivity. Qed.

Example Parse_rejects :
  Url.Parse "https://openapi.blofin.com/api/%zz" = None /\
  Url.Parse ("https://openapi.blofin.com/api/" +:+ String (ascii_of_N 127) "") = None /\
  Url.Path <$> Url.Parse "https://openapi.blofin.com/api/a%2Fb#frag" = Some "/api/a/b"%string.
Proof. repeat split; reflexivity. Qed.

Example CanonicalMIMEHeaderKey_examples :
  Textproto.CanonicalMIMEHeaderKey "access-KEY" = "Access-Key"%string /\
  Textproto.CanonicalMIMEHeaderKey "te" = "Te"%string /\
  Textproto.CanonicalMIMEHeaderKey "x custom" = "x custom"%string.
Proof. repeat split; reflexivity. Qed.

Example isHopByHopHeader_examples :
  isHopByHopHeader "TE" = true /\ isHopByHopHeader "keep-alive" = true /\
  isHopByHopHeader "ACCESS-KEY" = false /\ isHopByHopHeader "Trailer" = false.
Proof. repeat split; reflexivity. Qed.

Example cleanPath_examples :
  PathPkg.cleanPath "/api/v1/../v2//x/" = "/api/v2/x/"%string /\
  PathPkg.cleanPath "/api" = "/api"%string /\
  PathPkg.cleanPath "//api/./a" = "/api/a"%string /\
  PathPkg.cleanPath "/../" = "/"%string /\
  PathPkg.cleanPath "x" = "/x"%string.
Proof. repeat split; reflexivity. Qed.

(** The scenario of the specification, through the optimized server: the
    call goes to the same path and query with the header ACCESS-KEY (under
    its canonical key), and the upstream's 200 and body come back. *)
Example scenario_tickers :
  let r := Sample.request "GET" "/api/v1/market/tickers" "instId=BTC-USDT"
             (<["Access-Key" := ["abc"]]> ∅) in
  let s' := Optimized.serve (Sample.up "") r Sample.start in
  map (fun cq => (Url.Path (Http.URL cq.2), Url.RawQuery (Http.URL cq.2),
                  HeaderOps.Get "ACCESS-KEY" (Http.Header cq.2))) (Calls s')
  = [("/api/v1/market/tickers", "instId=BTC-USDT", "abc")]%string /\
  Sample.statusOf s' = Some 200%Z /\
  Http.Written (W s') = "{}"%string /\
  requestCount s' = 1%Z.
Proof. vm_compute. repeat split. Qed.

(** ** Bytes and strings *)

Section StringFacts.
Import Strings Textproto.

Lemma append_nil_l s : EmptyString +:+ s = s.
Proof. reflexivity. Qed.

Lemma append_cons c s t : String c s +:+ t = String c (s +:+ t).
Proof. reflexivity. Qed.

Lemma toLowerByte_toUpperByte c : toLowerByte (toUpperByte c) = toLowerByte c.
Proof. destruct c as [[] [] [] [] [] [] [] []]; reflexivity. Qed.

Lemma toLowerByte_idem c : toLowerByte (toLowerByte c) = toLowerByte c.
Proof. destruct c as [[] [] [] [] [] [] [] []]; reflexivity. Qed.

Lemma toUpperByte_valid c :
  validHeaderFieldByte (toUpperByte c) = validHeaderFieldByte c.
Proof. destruct c as [[] [] [] [] [] [] [] []]; reflexivity. Qed.

Lemma toLowerByte_valid c :
  validHeaderFieldByte (toLowerByte c) = validHeaderFieldByte c.
Proof. destruct c as [[] [] [] [] [] [] [] []]; reflexivity. Qed.

Lemma ToLower_canonicalize upper s : ToLower (canonicalize upper s) = ToLower s.
Proof.
  revert upper; induction s as [|c s IH]; intros upper; simpl; [reflexivity|].
  rewrite IH. f_equal.
  destruct upper; [apply toLowerByte_toUpperByte | apply toLowerByte_idem].
Qed.

Lemma ToLower_Canonical s : ToLower (CanonicalMIMEHeaderKey s) = ToLower s.
Proof.
  unfold CanonicalMIMEHeaderKey.
  destruct (forallb _ s); [apply ToLower_canonicalize | reflexivity].
Qed.

Lemma canonicalize_valid upper s :
  forallb validHeaderFieldByte (canonicalize upper s) = forallb validHeaderFieldByte s.
Proof.
  revert upper; induction s as [|c s IH]; intros upper; simpl; [reflexivity|].
  rewrite IH. f_equal.
  destruct upper; [apply toUpperByte_valid | apply toLowerByte_valid].
Qed.

(** The loop rewrites a key it has produced into itself. *)
Lemma canonicalize_idem upper s :
  canonicalize upper (canonicalize upper s) = canonicalize upper s.
Proof.
  revert upper; induction s as [|c s IH]; intros upper; simpl; [reflexivity|].
  assert (Hc : (if upper then toUpperByte (if upper then toUpperByte c else toLowerByte c)
                else toLowerByte (if upper then toUpperByte c else toLowerByte c))
               = (if upper then toUpperByte c else toLowerByte c)).
  { destruct upper; destruct c as [[] [] [] [] [] [] [] []]; reflexivity. }
  rewrite Hc, IH. reflexivity.
Qed.

Lemma Canonical_idem s :
  CanonicalMIMEHeaderKey (CanonicalMIMEHeaderKey s) = CanonicalMIMEHeaderKey s.
Proof.
  unfold CanonicalMIMEHeaderKey.
  destruct (forallb validHeaderFieldByte s) eqn:Hv.
  - rewrite canonicalize_valid, Hv. apply canonicalize_idem.
  - rewrite Hv. reflexivity.
Qed.

End StringFacts.

(** ** The hop-by-hop test *)

(** The test is the case-insensitive membership in the list of eight names. *)
Lemma isHopByHopHeader_spec header :
  isHopByHopHeader header = true <->
  exists name, In name hopByHopHeaders /\ Strings.ToLower header = Strings.ToLower name.
Proof.
  unfold isHopByHopHeader. rewrite List.existsb_exists. split.
  - intros (name & Hin & Heq). exists name. split; [exact Hin|].
    apply String.eqb_eq in Heq. congruence.
  - intros (name & Hin & Heq). exists name. split; [exact Hin|].
    apply String.eqb_eq. congruence.
Qed.

(** It does not tell a key from its canonical form. *)
Lemma isHopByHopHeader_Canonical name :
  isHopByHopHeader (Textproto.CanonicalMIMEHeaderKey name) = isHopByHopHeader name.
Proof. unfold isHopByHopHeader. rewrite ToLower_Canonical. reflexivity. Qed.

(** ** Header maps and the copy loop *)

Section HeaderFacts.
Import Textproto HeaderOps.

Lemma lookup_Add key value (h : MIMEHeader) k :
  Add key value h !! k =
  if decide (CanonicalMIMEHeaderKey key = k)
  then Some (default [] (h !! k) ++ [value])
  else h !! k.
Proof.
  unfold Add. rewrite lookup_insert. case_decide; [subst; reflexivity | reflexivity].
Qed.

Lemma lookup_Set key value (h : MIMEHeader) k :
  Set_ key value h !! k =
  if decide (CanonicalMIMEHeaderKey key = k) then Some [value] else h !! k.
Proof. unfold Set_. rewrite lookup_insert. case_decide; reflexivity. Qed.

Lemma lookup_addAll_ne name values (dst : MIMEHeader) k :
  CanonicalMIMEHeaderKey name <> k -> addAll name values dst !! k = dst !! k.
Proof.
  intros Hne. revert dst. induction values as [|v values IH]; intros dst; simpl.
  - reflexivity.
  - unfold addAll in *. simpl. rewrite IH, lookup_Add.
    case_decide; [contradiction | reflexivity].
Qed.

Lemma values_addAll name values (dst : MIMEHeader) :
  default [] (addAll name values dst !! CanonicalMIMEHeaderKey name)
  = default [] (dst !! CanonicalMIMEHeaderKey name) ++ values.
Proof.
  revert dst. induction values as [|v values IH]; intros dst.
  - simpl. rewrite app_nil_r. reflexivity.
  - unfold addAll in *. simpl. rewrite IH, lookup_Add.
    case_decide; [|contradiction]. simpl. rewrite <- app_assoc. reflexivity.
Qed.

Lemma is_Some_addAll name values (dst : MIMEHeader) k :
  is_Some (addAll name values dst !! k) ->
  is_Some (dst !! k) \/ (k = CanonicalMIMEHeaderKey name /\ values <> []).
Proof.
  destruct (decide (CanonicalMIMEHeaderKey name = k)) as [<-|Hne].
  - destruct values as [|v values]; [left; assumption | right; split; [reflexivity | discriminate]].
  - rewrite lookup_addAll_ne by assumption. left; assumption.
Qed.

(** A hop-by-hop key is never written by the loop. *)
Lemma copyHeaders_hop entries (dst : MIMEHeader) k :
  isHopByHopHeader k = true -> copyHeaders entries dst !! k = dst !! k.
Proof.
  intros Hk. unfold copyHeaders. revert dst.
  induction entries as [|[name values] entries IH]; intros dst; simpl; [reflexivity|].
  rewrite IH. unfold copyEntry; simpl.
  destruct (isHopByHopHeader name) eqn:Hname; [reflexivity|].
  apply lookup_addAll_ne. intros <-.
  rewrite isHopByHopHeader_Canonical in Hk. congruence.
Qed.

(** The values under a key after the loop: those that were there, followed
    by the values of every entry that feeds the key, in the order of the
    visit. *)
Lemma values_copyHeaders entries (dst : MIMEHeader) k :
  default [] (copyHeaders entries dst !! k)
  = default [] (dst !! k) ++ concat (map snd (filter (fun e => feeds k e = true) entries)).
Proof.
  unfold copyHeaders. revert dst.
  induction entries as [|[name values] entries IH]; intros dst; simpl.
  - rewrite app_nil_r. reflexivity.
  - rewrite IH, filter_cons. unfold copyEntry; simpl.
    destruct (decide (feeds k (name, values) = true)) as [Hf|Hf];
      unfold feeds in Hf; simpl in Hf.
    + apply andb_true_iff in Hf as [Hh Hk].
      apply negb_true_iff in Hh. apply bool_decide_eq_true in Hk.
      rewrite Hh. subst k. rewrite values_addAll. simpl.
      rewrite app_assoc. reflexivity.
    + apply not_true_is_false, andb_false_iff in Hf as [Hh|Hk].
      * apply negb_false_iff in Hh. rewrite Hh. reflexivity.
      * apply bool_decide_eq_false in Hk.
        destruct (isHopByHopHeader name); [reflexivity|].
        rewrite lookup_addAll_ne by assumption. reflexivity.
Qed.

(** Every key the loop creates is the canonical form of a visited name that
    is not hop-by-hop and has a value. *)
Lemma is_Some_copyHeaders entries (dst : MIMEHeader) k :
  is_Some (copyHeaders entries dst !! k) ->
  is_Some (dst !! k) \/
  exists name values, In (name, values) entries /\ isHopByHopHeader name = false /\
                      values <> [] /\ k = CanonicalMIMEHeaderKey name.
Proof.
  unfold copyHeaders. revert dst.
  induction entries as [|[name values] entries IH]; intros dst; simpl; [tauto|].
  intros H. apply IH in H as [H | (n & vs & Hin & Hh & Hvs & Hk)].
  - unfold copyEntry in H; simpl in H.
    destruct (isHopByHopHeader name) eqn:Hname; [left; exact H|].
    apply is_Some_addAll in H as [H | [Hk Hvs]]; [left; exact H|].
    right. exists name, values. tauto.
  - right. exists n, vs. tauto.
Qed.

End HeaderFacts.

(** ** What a forwarder does to the state, case by case *)

Section ForwarderFacts.
Import Http.
Context (E : Env).

Lemma NewRequestWithContext_Some ctx method url body q :
  NewRequestWithContext ctx method url body = Some q ->
  Header q = ∅ /\ Ctx q = ctx /\ Body q = body /\
  Method q = (if String.eqb method "" then "GET" else method)%string.
Proof.
  unfold NewRequestWithContext.
  destruct (negb (validMethod _)); [discriminate|].
  destruct (Url.Parse url); simpl; [|discriminate].
  intros [= <-]. simpl. auto.
Qed.

(** The simple forwarder calls the upstream exactly when [outbound] yields a
    request, with that request and a client whose timeout is 30 seconds. *)
Lemma Simple_blofinProxy_Calls r s :
  Calls (Simple.blofinProxy E r s)
  = Calls s ++ match outbound E Context.Background r with
               | Some q => [(mkClient (30 * Second), q)]
               | None => []
               end.
Proof.
  unfold Simple.blofinProxy, outbound, NewRequest.
  destruct (targetURL r) as [u|]; simpl; [|apply eq_sym, app_nil_r].
  destruct (NewRequestWithContext _ _ _ _) as [q|]; simpl; [|apply eq_sym, app_nil_r].
  destruct (Do E _ _) as [resp|err]; simpl; [|reflexivity].
  destruct (CopyErr resp); reflexivity.
Qed.

(** The optimized forwarder does so with the shared client and a context
    derived from the inbound one. *)
Lemma Optimized_blofinProxy_Calls r s :
  Calls (Optimized.blofinProxyOptimized E r s)
  = Calls s ++ match outbound E (Context.WithTimeout (Now E) (Ctx r) (25 * Second)) r with
               | Some q => [(Optimized.httpClient, q)]
               | None => []
               end.
Proof.
  unfold Optimized.blofinProxyOptimized, outbound.
  destruct (targetURL r) as [u|]; simpl; [|apply eq_sym, app_nil_r].
  destruct (NewRequestWithContext _ _ _ _) as [q|]; simpl; [|apply eq_sym, app_nil_r].
  destruct (Do E _ _) as [resp|err]; simpl.
  - destruct (CopyErr resp); [destruct (String.eqb _ _)|]; reflexivity.
  - destruct (String.eqb _ _); reflexivity.
Qed.

Lemma Simple_blofinProxy_W r s :
  W (Simple.blofinProxy E r s)
  = answer E (mkClient (30 * Second)) Context.Background r (W s).
Proof.
  unfold Simple.blofinProxy, answer, outbound, NewRequest.
  destruct (targetURL r) as [u|]; simpl; [|reflexivity].
  destruct (NewRequestWithContext _ _ _ _) as [q|]; simpl; [|reflexivity].
  destruct (Do E _ _) as [resp|err]; simpl; [|reflexivity].
  destruct (CopyErr resp); reflexivity.
Qed.

Lemma Optimized_blofinProxy_W r s :
  W (Optimized.blofinProxyOptimized E r s)
  = answer E Optimized.httpClient (Context.WithTimeout (Now E) (Ctx r) (25 * Second)) r (W s).
Proof.
  unfold Optimized.blofinProxyOptimized, answer, outbound.
  destruct (targetURL r) as [u|]; simpl; [|reflexivity].
  destruct (NewRequestWithContext _ _ _ _) as [q|]; simpl; [|reflexivity].
  destruct (Do E _ _) as [resp|err]; simpl.
  - destruct (CopyErr resp); [destruct (String.eqb _ _)|]; reflexivity.
  - destruct (String.eqb _ _); reflexivity.
Qed.

End ForwarderFacts.

(** ** Properties of the header map that survive a handler *)

Section WriterFacts.
Import Http HeaderOps.
Context (E : Env) (Q : MIMEHeader -> Prop) `{!HeaderInv Q}.

Lemma sent_setHeader key value w :
  key = "Content-Type" \/ key = "X-Content-Type-Options" ->
  sent Q w -> sent Q (setHeader key value w).
Proof. intros Hk [H1 H2]. split; [apply hinv_Set; assumption | exact H2]. Qed.

Lemma sent_WriteHeader code w : sent Q w -> sent Q (WriteHeader code w).
Proof.
  intros [H1 H2]. unfold WriteHeader.
  destruct (Wrote w) as [p|] eqn:Hw;
    [split; [exact H1 | intros code' hdr Hc; apply (H2 code' hdr); congruence]|].
  split; [exact H1|]. simpl. intros code' hdr [= _ <-]. exact H1.
Qed.

Lemma sent_Write data w : sent Q w -> sent Q (Write data w).
Proof.
  intros H. apply (sent_WriteHeader StatusOK) in H. destruct H as [H1 H2].
  split; [exact H1 | exact H2].
Qed.

Lemma sent_Error msg code w : sent Q w -> sent Q (Error msg code w).
Proof.
  intros H. unfold Error.
  apply sent_Write, sent_WriteHeader, sent_setHeader; [right; reflexivity|].
  apply sent_setHeader; [left; reflexivity | exact H].
Qed.

Lemma sent_relayResponse resp w : sent Q w -> sent Q (relayResponse E resp w).
Proof.
  intros [H1 H2]. unfold relayResponse.
  apply sent_Write, sent_WriteHeader.
  split; [apply hinv_copy; exact H1 | exact H2].
Qed.

Lemma sent_answer c ctx r w : sent Q w -> sent Q (answer E c ctx r w).
Proof.
  intros H. unfold answer.
  destruct (targetURL r); [|apply sent_Error; exact H].
  destruct (outbound E ctx r); [|apply sent_Error; exact H].
  destruct (Do E c _); [apply sent_relayResponse | apply sent_Error]; exact H.
Qed.

(** Every handler the two programs register under [corsMiddleware] keeps
    such a property. *)
Lemma sent_Simple_rootHandler r s :
  sent Q (W s) -> sent Q (W (Simple.rootHandler E r s)).
Proof.
  intros H. unfold Simple.rootHandler.
  destruct (String.eqb _ "/").
  - simpl. apply sent_Write, sent_setHeader; [left; reflexivity | exact H].
  - destruct (Strings.HasPrefix _ _).
    + rewrite Simple_blofinProxy_W. simpl. apply sent_answer; exact H.
    + simpl. apply sent_Error; exact H.
Qed.

Lemma sent_Simple_healthHandler r s :
  sent Q (W s) -> sent Q (W (Simple.healthHandler E r s)).
Proof.
  intros H. simpl. apply sent_Write, sent_setHeader; [left; reflexivity | exact H].
Qed.

Lemma sent_Optimized_healthHandler r s :
  sent Q (W s) -> sent Q (W (Optimized.healthHandler E r s)).
Proof.
  intros H. simpl. apply sent_Write, sent_setHeader; [left; reflexivity | exact H].
Qed.

Lemma sent_Optimized_metricsHandler r s :
  sent Q (W s) -> sent Q (W (Optimized.metricsHandler E r s)).
Proof.
  intros H. simpl. apply sent_Write, sent_setHeader; [left; reflexivity | exact H].
Qed.

Lemma sent_Optimized_blofinProxy r s :
  sent Q (W s) -> sent Q (W (Optimized.blofinProxyOptimized E r s)).
Proof. intros H. rewrite Optimized_blofinProxy_W. apply sent_answer; exact H. Qed.

End WriterFacts.

(** ** The two properties of header maps the claims are about *)

Section HeaderInvariants.
Import Http HeaderOps Textproto.

(** A hop-by-hop key stays absent. *)
Lemma HeaderInv_lacks k : isHopByHopHeader k = true -> HeaderInv (lacks k).
Proof.
  intros Hk. split; unfold lacks.
  - intros key value h Hkey Hh. rewrite lookup_Set.
    case_decide as Heq; [|exact Hh]. exfalso.
    rewrite <- Heq, isHopByHopHeader_Canonical in Hk.
    destruct Hkey as [-> | ->]; discriminate Hk.
  - intros entries h Hh. rewrite copyHeaders_hop by exact Hk. exact Hh.
Qed.

Lemma Get_hd key (h : MIMEHeader) :
  Get key h = hd ""%string (default [] (h !! CanonicalMIMEHeaderKey key)).
Proof. unfold Get. destruct (h !! _) as [[|v vs]|]; reflexivity. Qed.

(** [Get] returns the first value, and the loop only appends. *)
Lemma Get_copyHeaders key entries (h : MIMEHeader) v :
  v <> ""%string -> Get key h = v -> Get key (copyHeaders entries h) = v.
Proof.
  intros Hv. rewrite !Get_hd, values_copyHeaders.
  destruct (default [] (h !! _)) as [|v' vs]; simpl; [congruence | auto].
Qed.

Lemma Get_Set_ne key key' value (h : MIMEHeader) :
  CanonicalMIMEHeaderKey key' <> CanonicalMIMEHeaderKey key ->
  Get key (Set_ key' value h) = Get key h.
Proof.
  intros Hne. unfold Get. rewrite lookup_Set.
  case_decide; [contradiction | reflexivity].
Qed.

Lemma Get_Set_eq key value (h : MIMEHeader) : Get key (Set_ key value h) = value.
Proof. unfold Get. rewrite lookup_Set. case_decide; [reflexivity | contradiction]. Qed.

(** The cross-origin headers, once set, stay. *)
#[global] Instance HeaderInv_corsIn : HeaderInv corsIn.
Proof.
  split; unfold corsIn.
  - intros key value h Hkey (H1 & H2 & H3 & H4).
    rewrite !Get_Set_ne; [tauto | | | |];
      destruct Hkey as [-> | ->]; discriminate.
  - intros entries h (H1 & H2 & H3 & H4).
    repeat split; apply Get_copyHeaders; try assumption; discriminate.
Qed.

(** [corsMiddleware] sets the four headers before anything else happens. *)
Lemma corsIn_set (h : MIMEHeader) :
  corsIn (Set_ "Access-Control-Max-Age" "86400"
            (Set_ "Access-Control-Allow-Headers" AllowHeaders
               (Set_ "Access-Control-Allow-Methods" AllowMethods
                  (Set_ "Access-Control-Allow-Origin" "*" h)))).
Proof.
  unfold corsIn.
  repeat split;
    repeat first [ apply Get_Set_eq | rewrite Get_Set_ne by discriminate ].
Qed.

End HeaderInvariants.

(** ** Every handler writes a status line *)

Section Written.
Import Http.
Context (E : Env).

Lemma Wrote_WriteHeader code w : is_Some (Wrote (WriteHeader code w)).
Proof. unfold WriteHeader. destruct (Wrote w) eqn:Hw; simpl; [rewrite Hw|]; eauto. Qed.

Lemma Wrote_Write data w : is_Some (Wrote (Write data w)).
Proof. unfold Write. simpl. apply Wrote_WriteHeader. Qed.

Lemma Wrote_answer c ctx r w : is_Some (Wrote (answer E c ctx r w)).
Proof.
  unfold answer, Error, relayResponse.
  destruct (targetURL r); [|apply Wrote_Write].
  destruct (outbound E ctx r); [|apply Wrote_Write].
  destruct (Do E c _); apply Wrote_Write.
Qed.

Lemma Written_WriteHeader code w : Written (WriteHeader code w) = Written w.
Proof. unfold WriteHeader. destruct (Wrote w); reflexivity. Qed.

Lemma Written_Error msg code w :
  Written (Error msg code w) = (Written w +:+ msg +:+ LF)%string.
Proof. unfold Error, Write. simpl. rewrite !Written_WriteHeader. reflexivity. Qed.

(** On a writer that has sent nothing yet, [WriteHeader] sends the status
    it is given with the live header map. *)
Lemma Wrote_fresh code w :
  Wrote w = None -> Wrote (WriteHeader code w) = Some (code, WHeader w).
Proof. intros Hw. unfold WriteHeader. rewrite Hw. reflexivity. Qed.

End Written.

(** ** Routing *)

Section Routing.
Import Strings Http.
Context (E : Env).

Lemma lastByte_app_byte s c : lastByte (s +:+ String c EmptyString) = Some c.
Proof.
  induction s as [|a s IH]; simpl; [reflexivity|].
  destruct (s +:+ String c EmptyString) eqn:Hs; [|exact IH].
  destruct s; discriminate Hs.
Qed.

Lemma app_slash_is_slash s : s +:+ "/" = "/"%string -> s = EmptyString.
Proof.
  destruct s as [|a s]; [reflexivity|]. simpl. intros [= _ H].
  destruct s; discriminate H.
Qed.

Lemma HasPrefix_join segs : segs <> [] -> HasPrefix (PathPkg.join segs) "/" = true.
Proof. destruct segs as [|seg segs]; [congruence | intros _; vm_compute; reflexivity]. Qed.

Lemma HasPrefix_cons c s p prefix :
  HasPrefix (String c s) (String p prefix)
  = if Ascii.eqb c p then HasPrefix s prefix else false.
Proof. reflexivity. Qed.

Lemma HasPrefix_app s t prefix :
  HasPrefix s prefix = true -> HasPrefix (s +:+ t) prefix = true.
Proof.
  revert s; induction prefix as [|p prefix IH]; intros s; [reflexivity|].
  destruct s as [|c s]; [intros H; discriminate H|].
  rewrite append_cons, !HasPrefix_cons.
  destruct (Ascii.eqb c p); [apply IH | intros H; discriminate H].
Qed.

(** [cleanPath] returns a rooted path. *)
Lemma cleanPath_rooted p : HasPrefix (PathPkg.cleanPath p) "/" = true.
Proof.
  unfold PathPkg.cleanPath.
  destruct (String.eqb p ""); [reflexivity|].
  set (p' := if HasPrefix p "/" then p else ("/" +:+ p)%string).
  assert (Hnp : HasPrefix (PathPkg.CleanRooted p') "/" = true).
  { unfold PathPkg.CleanRooted.
    destruct (rev _) as [|seg segs] eqn:Hr; [reflexivity|].
    apply HasPrefix_join. discriminate. }
  destruct (_ && _); [apply HasPrefix_app|]; exact Hnp.
Qed.

(** The tables of the two muxes. *)
Lemma Simple_mux_lookup k :
  Mux.m (Simple.mux E) !! k =
  if decide (k = "/"%string) then Some (Mux.mkEntry "/" (corsMiddleware (Simple.rootHandler E)))
  else if decide (k = "/health"%string)
       then Some (Mux.mkEntry "/health" (corsMiddleware (Simple.healthHandler E)))
       else None.
Proof.
  unfold Simple.mux, Mux.HandleFunc; simpl.
  rewrite !lookup_insert, lookup_empty.
  repeat case_decide; congruence.
Qed.

Lemma Optimized_mux_lookup k :
  Mux.m (Optimized.mux E) !! k =
  if decide (k = "/api/"%string)
  then Some (Mux.mkEntry "/api/" (corsMiddleware (Optimized.blofinProxyOptimized E)))
  else if decide (k = "/metrics"%string)
       then Some (Mux.mkEntry "/metrics" (corsMiddleware (Optimized.metricsHandler E)))
       else if decide (k = "/health"%string)
            then Some (Mux.mkEntry "/health" (corsMiddleware (Optimized.healthHandler E)))
            else None.
Proof.
  unfold Optimized.mux, Mux.HandleFunc; simpl.
  rewrite !lookup_insert, lookup_empty.
  repeat case_decide; congruence.
Qed.

(** The simple mux never redirects to a path with a slash added: none of
    its patterns but ["/"] ends in a slash. *)
Lemma Simple_shouldRedirect host path :
  Mux.shouldRedirectRLocked (Simple.mux E) host path = false.
Proof.
  unfold Mux.shouldRedirectRLocked.
  destruct (List.existsb _ [path; _]); [reflexivity|].
  destruct (String.eqb path "") eqn:Hp; [reflexivity|].
  apply String.eqb_neq in Hp.
  assert (Hno : forall c, (c = path \/ c = (host +:+ path)%string) ->
                  bool_decide (is_Some (Mux.m (Simple.mux E) !! (c +:+ "/"))) = false).
  { intros c Hc. apply bool_decide_eq_false. rewrite Simple_mux_lookup.
    intros [e He]. repeat case_decide; try discriminate He.
    - assert (c = EmptyString) as -> by (apply app_slash_is_slash; assumption).
      destruct Hc as [Hc | Hc]; [congruence|].
      destruct host; [rewrite append_nil_l in Hc; congruence | discriminate Hc].
    - pose proof (lastByte_app_byte c "/") as Hl.
      unfold "+:+" in *. rewrite H0 in Hl. discriminate Hl. }
  simpl. rewrite !Hno by auto. reflexivity.
Qed.

End Routing.

Section Dispatch.
Import Strings Http.
Context (E : Env).

(** Whatever the request, [mux.Handler] answers with a redirect or with
    the handler [mux.handler] finds for the request's own path. *)
Lemma Handler_cases mux r :
  (exists u, Mux.Handler_ E mux r = Mux.RedirectHandler E u StatusMovedPermanently) \/
  (exists host, Mux.Handler_ E mux r = Mux.handler mux host (Url.Path (URL r))).
Proof.
  unfold Mux.Handler_.
  destruct (String.eqb (Method r) "CONNECT").
  - destruct (Mux.shouldRedirectRLocked _ _ _); eauto.
  - destruct (Mux.shouldRedirectRLocked _ _ _); [eauto|].
    destruct (negb _); eauto.
Qed.

(** The handlers the simple mux can find. *)
Lemma Simple_handler_cases host path :
  Mux.handler (Simple.mux E) host path = corsMiddleware (Simple.rootHandler E) \/
  Mux.handler (Simple.mux E) host path = corsMiddleware (Simple.healthHandler E) \/
  Mux.handler (Simple.mux E) host path = Mux.NotFoundHandler.
Proof.
  unfold Mux.handler, Mux.match_. change (Mux.hosts (Simple.mux E)) with false. cbv iota.
  rewrite Simple_mux_lookup. repeat case_decide; simpl; auto.
  change (Mux.es (Simple.mux E))
    with [Mux.mkEntry "/" (corsMiddleware (Simple.rootHandler E))].
  cbn [List.find Mux.pattern]. destruct (HasPrefix path "/"); simpl; auto.
Qed.

(** The handlers the optimized mux can find; the forwarder is found only
    for a path that begins with "/api/". *)
Lemma Optimized_handler_cases host path :
  (Mux.handler (Optimized.mux E) host path = corsMiddleware (Optimized.blofinProxyOptimized E)
   /\ HasPrefix path "/api/" = true) \/
  Mux.handler (Optimized.mux E) host path = corsMiddleware (Optimized.metricsHandler E) \/
  Mux.handler (Optimized.mux E) host path = corsMiddleware (Optimized.healthHandler E) \/
  Mux.handler (Optimized.mux E) host path = Mux.NotFoundHandler.
Proof.
  unfold Mux.handler, Mux.match_. change (Mux.hosts (Optimized.mux E)) with false. cbv iota.
  rewrite Optimized_mux_lookup. repeat case_decide; subst; simpl; auto.
  change (Mux.es (Optimized.mux E))
    with [Mux.mkEntry "/api/" (corsMiddleware (Optimized.blofinProxyOptimized E))].
  cbn [List.find Mux.pattern]. destruct (HasPrefix path "/api/") eqn:Hp; simpl; auto.
Qed.

(** A canonical path is routed by the simple mux to one of its two
    handlers; nothing else can happen to it. *)
Lemma Simple_serve_canonical r s :
  String.eqb (RequestURI r) "*" = false ->
  PathPkg.cleanPath (Url.Path (URL r)) = Url.Path (URL r) ->
  exists next,
    (next = Simple.rootHandler E \/ next = Simple.healthHandler E) /\
    Simple.serve E r s = onWriter finishRequest (corsMiddleware next r s).
Proof.
  intros Huri Hclean.
  unfold Simple.serve, Mux.serverHandler, Mux.ServeHTTP. rewrite Huri. simpl.
  assert (Hh : forall host, exists next,
             (next = Simple.rootHandler E \/ next = Simple.healthHandler E) /\
             Mux.handler (Simple.mux E) host (Url.Path (URL r)) = corsMiddleware next).
  { intros host. unfold Mux.handler, Mux.match_.
    change (Mux.hosts (Simple.mux E)) with false. cbv iota.
    rewrite Simple_mux_lookup. repeat case_decide; simpl; eauto.
    change (Mux.es (Simple.mux E))
      with [Mux.mkEntry "/" (corsMiddleware (Simple.rootHandler E))].
    cbn [List.find Mux.pattern]. rewrite <- Hclean, cleanPath_rooted. simpl. eauto. }
  unfold Mux.Handler_. rewrite !Simple_shouldRedirect, Hclean, String.eqb_refl. simpl.
  destruct (String.eqb (Method r) "CONNECT");
    [destruct (Hh (Host r)) as (next & Hn & ->) |
     destruct (Hh (stripHostPort E (Host r))) as (next & Hn & ->)]; eauto.
Qed.

End Dispatch.

(** ** The middleware *)

Section Middleware.
Import Http.
Context (E : Env).

Lemma corsMiddleware_OPTIONS next r s :
  Method r = "OPTIONS"%string -> corsMiddleware next r s = onWriter preflight s.
Proof. intros Hm. unfold corsMiddleware. rewrite Hm. reflexivity. Qed.

Lemma corsMiddleware_other next r s :
  String.eqb (Method r) "OPTIONS" = false ->
  corsMiddleware next r s
  = next r (onWriter (fun w =>
                        setHeader "Access-Control-Max-Age" "86400"
                          (setHeader "Access-Control-Allow-Headers" AllowHeaders
                             (setHeader "Access-Control-Allow-Methods" AllowMethods
                                (setHeader "Access-Control-Allow-Origin" "*" w)))) s).
Proof. intros Hm. unfold corsMiddleware. rewrite Hm. reflexivity. Qed.

(** The preflight answer on a writer that has sent nothing. *)
Lemma preflight_fresh w :
  Wrote w = None ->
  exists hdr, Wrote (preflight w) = Some (StatusOK, hdr) /\ corsIn hdr /\
              Written (preflight w) = Written w.
Proof.
  intros Hw. unfold preflight. rewrite Wrote_fresh by exact Hw.
  eexists. split; [reflexivity|]. split; [apply corsIn_set|].
  unfold WriteHeader. simpl. rewrite Hw. reflexivity.
Qed.

(** A wrapped handler that writes a status line and keeps the cross-origin
    headers answers with them. *)
Lemma corsMiddleware_carries (next : Handler) r s :
  Wrote (W s) = None ->
  (forall s', is_Some (Wrote (W (next r s')))) ->
  (forall s', sent corsIn (W s') -> sent corsIn (W (next r s'))) ->
  carriesCORS (W (corsMiddleware next r s)).
Proof.
  intros Hw Hwrites Hkeeps.
  destruct (String.eqb (Method r) "OPTIONS") eqn:Hm.
  - apply String.eqb_eq in Hm. rewrite corsMiddleware_OPTIONS by exact Hm. simpl.
    destruct (preflight_fresh (W s) Hw) as (hdr & H1 & H2 & _). exists StatusOK, hdr. auto.
  - rewrite corsMiddleware_other by exact Hm.
    set (s1 := onWriter _ s).
    assert (Hs1 : sent corsIn (W s1)).
    { split; [apply corsIn_set|]. subst s1; simpl. rewrite Hw. discriminate. }
    destruct (Hwrites s1) as [[code hdr] Hc].
    exists code, hdr. split; [exact Hc|].
    destruct (Hkeeps s1 Hs1) as [_ H]. eapply H, Hc.
Qed.

(** The handlers of both programs answer every request with the
    cross-origin headers. *)
Lemma carries_Simple_root r s :
  Wrote (W s) = None -> carriesCORS (W (corsMiddleware (Simple.rootHandler E) r s)).
Proof.
  intros Hw. apply corsMiddleware_carries; [exact Hw | | intros s'; apply sent_Simple_rootHandler, _].
  intros s'. unfold Simple.rootHandler.
  destruct (String.eqb _ "/"); [apply Wrote_Write|].
  destruct (Strings.HasPrefix _ _); [|apply Wrote_Write].
  rewrite Simple_blofinProxy_W. apply Wrote_answer.
Qed.

Lemma carries_Simple_health r s :
  Wrote (W s) = None -> carriesCORS (W (corsMiddleware (Simple.healthHandler E) r s)).
Proof.
  intros Hw. apply corsMiddleware_carries; [exact Hw | | intros s'; apply sent_Simple_healthHandler, _].
  intros s'. apply Wrote_Write.
Qed.

Lemma carries_Optimized_health r s :
  Wrote (W s) = None -> carriesCORS (W (corsMiddleware (Optimized.healthHandler E) r s)).
Proof.
  intros Hw. apply corsMiddleware_carries; [exact Hw | | intros s'; apply sent_Optimized_healthHandler, _].
  intros s'. apply Wrote_Write.
Qed.

Lemma carries_Optimized_metrics r s :
  Wrote (W s) = None -> carriesCORS (W (corsMiddleware (Optimized.metricsHandler E) r s)).
Proof.
  intros Hw. apply corsMiddleware_carries; [exact Hw | | intros s'; apply sent_Optimized_metricsHandler, _].
  intros s'. apply Wrote_Write.
Qed.

Lemma carries_Optimized_proxy r s :
  Wrote (W s) = None ->
  carriesCORS (W (corsMiddleware (Optimized.blofinProxyOptimized E) r s)).
Proof.
  intros Hw. apply corsMiddleware_carries; [exact Hw | | intros s'; apply sent_Optimized_blofinProxy, _].
  intros s'. rewrite Optimized_blofinProxy_W. apply Wrote_answer.
Qed.

Lemma carriesCORS_finish w : carriesCORS w -> carriesCORS (finishRequest w).
Proof.
  intros (code & hdr & Hw & Hc). exists code, hdr. split; [|exact Hc].
  unfold finishRequest, WriteHeader. rewrite Hw. exact Hw.
Qed.

End Middleware.

(** ** Cross-origin headers on the responses (claim C8) *)

(** C8, as the code has it: every response produced by a handler that is
    registered with the mux carries the wildcard allow-origin header, the
    method list GET, POST, PUT, PATCH, DELETE, OPTIONS and the two other
    cross-origin headers.  All registered handlers are wrapped in
    [corsMiddleware]; this covers the forwarders' 400, 500 and 502 and, in
    the simple variant, whose pattern "/" takes every canonical path, the
    404 for unknown routes.  The answers net/http writes on its own (the
    optimized variant's 404 for an unregistered path, redirects, the answers
    to the request target "*") are not covered. *)
Theorem registered_handlers_carry_cors (E : Env) (r : Http.Request) (s : State) :
  Http.Wrote (W s) = None ->
  (forall pat e,
      Mux.m (Simple.mux E) !! pat = Some e \/ Mux.m (Optimized.mux E) !! pat = Some e ->
      carriesCORS (W (Mux.h e r s))) /\
  (String.eqb (Http.RequestURI r) "*" = false ->
   PathPkg.cleanPath (Url.Path (Http.URL r)) = Url.Path (Http.URL r) ->
   carriesCORS (W (Simple.serve E r s))).
Proof.
  intros Hw. split.
  - intros pat e [He | He].
    + rewrite Simple_mux_lookup in He.
      repeat case_decide; try discriminate He; injection He as <-; simpl.
      * apply carries_Simple_root, Hw.
      * apply carries_Simple_health, Hw.
    + rewrite Optimized_mux_lookup in He.
      repeat case_decide; try discriminate He; injection He as <-; simpl.
      * apply carries_Optimized_proxy, Hw.
      * apply carries_Optimized_metrics, Hw.
      * apply carries_Optimized_health, Hw.
  - intros Huri Hclean.
    destruct (Simple_serve_canonical E r s Huri Hclean) as (next & [-> | ->] & ->);
      simpl; apply carriesCORS_finish.
    + apply carries_Simple_root, Hw.
    + apply carries_Simple_health, Hw.
Qed.

(** A request the simple variant answers with 404, cross-origin headers
    included. *)
Lemma registered_handlers_carry_cors_witness :
  let r := Sample.request "GET" "/nope" "" ∅ in
  Http.Wrote (W Sample.start) = None /\
  Sample.statusOf (Simple.serve (Sample.up "") r Sample.start) = Some 404%Z /\
  carriesCORS (W (Simple.serve (Sample.up "") r Sample.start)).
Proof.
  split; [reflexivity|]. split; [vm_compute; reflexivity|].
  apply (registered_handlers_carry_cors (Sample.up "")
           (Sample.request "GET" "/nope" "" ∅) Sample.start); reflexivity.
Defined.

(** C8 fails as stated: the optimized variant registers no pattern for
    "/nope", so the mux itself answers 404, and that answer has neither the
    allow-origin header nor the method list. *)
Lemma unknown_route_without_cors :
  let s' := Optimized.serve (Sample.up "") (Sample.request "GET" "/nope" "" ∅) Sample.start in
  Sample.statusOf s' = Some 404%Z /\
  Sample.sentHeader "Access-Control-Allow-Origin" s' = None /\
  Sample.sentHeader "Access-Control-Allow-Methods" s' = None.
Proof. vm_compute. repeat split. Qed.

(** ** Which requests reach a forwarder *)

Section Quiet.
Import Strings Http.
Context (E : Env).

Lemma quiet_onWriter f s : quiet s (onWriter f s).
Proof. split; reflexivity. Qed.

Lemma quiet_trans s1 s2 s3 : quiet s1 s2 -> quiet s2 s3 -> quiet s1 s3.
Proof. intros [H1 H2] [H3 H4]. split; congruence. Qed.

(** A wrapped handler is quiet on an OPTIONS request, and otherwise
    whenever the handler inside is. *)
Lemma quiet_corsMiddleware (next : Handler) r s :
  (String.eqb (Method r) "OPTIONS" = false -> forall s', quiet s' (next r s')) ->
  quiet s (corsMiddleware next r s).
Proof.
  intros Hnext. destruct (String.eqb (Method r) "OPTIONS") eqn:Hm.
  - apply String.eqb_eq in Hm. rewrite corsMiddleware_OPTIONS by exact Hm.
    apply quiet_onWriter.
  - rewrite corsMiddleware_other by exact Hm.
    eapply quiet_trans; [apply quiet_onWriter | apply Hnext; reflexivity].
Qed.

Lemma quiet_Simple_rootHandler r s :
  HasPrefix (Url.Path (URL r)) "/api/" = false -> quiet s (Simple.rootHandler E r s).
Proof.
  intros Hp. unfold Simple.rootHandler. rewrite Hp.
  destruct (String.eqb _ "/"); split; reflexivity.
Qed.

(** The simple server calls the upstream, if at all, for a request that is
    not a preflight and whose path begins with "/api/". *)
Lemma quiet_Simple_serve r s :
  Method r = "OPTIONS"%string \/ HasPrefix (Url.Path (URL r)) "/api/" = false ->
  quiet s (Simple.serve E r s).
Proof.
  intros Hr. unfold Simple.serve, Mux.serverHandler.
  eapply quiet_trans; [|apply quiet_onWriter].
  destruct (_ && _); [apply quiet_onWriter|].
  unfold Mux.ServeHTTP.
  destruct (String.eqb (RequestURI r) "*");
    [destruct (ProtoAtLeast 1 1 r); split; reflexivity|].
  destruct (Handler_cases E (Simple.mux E) r) as [[u ->] | [host ->]];
    [apply quiet_onWriter|].
  destruct (Simple_handler_cases E host (Url.Path (URL r))) as [-> | [-> | ->]].
  - apply quiet_corsMiddleware. intros Hm s'.
    destruct Hr as [Hr | Hr]; [rewrite Hr in Hm; discriminate Hm|].
    apply quiet_Simple_rootHandler, Hr.
  - apply quiet_corsMiddleware. intros _ s'. split; reflexivity.
  - apply quiet_onWriter.
Qed.

(** So does the optimized server. *)
Lemma quiet_Optimized_serve r s :
  Method r = "OPTIONS"%string \/ HasPrefix (Url.Path (URL r)) "/api/" = false ->
  quiet s (Optimized.serve E r s).
Proof.
  intros Hr. unfold Optimized.serve, Mux.serverHandler.
  eapply quiet_trans; [|apply quiet_onWriter].
  destruct (_ && _); [apply quiet_onWriter|].
  unfold Mux.ServeHTTP.
  destruct (String.eqb (RequestURI r) "*");
    [destruct (ProtoAtLeast 1 1 r); split; reflexivity|].
  destruct (Handler_cases E (Optimized.mux E) r) as [[u ->] | [host ->]];
    [apply quiet_onWriter|].
  destruct (Optimized_handler_cases E host (Url.Path (URL r)))
    as [[-> Hp] | [-> | [-> | ->]]].
  - destruct Hr as [Hr | Hr]; [|congruence].
    rewrite corsMiddleware_OPTIONS by exact Hr. apply quiet_onWriter.
  - apply quiet_corsMiddleware. intros _ s'. split; reflexivity.
  - apply quiet_corsMiddleware. intros _ s'. split; reflexivity.
  - apply quiet_onWriter.
Qed.

End Quiet.

Section OptimizedRouting.
Import Strings Http.
Context (E : Env).

Lemma length_append s t : String.length (s +:+ t) = (String.length s + String.length t)%nat.
Proof. induction s as [|c s IH]; [reflexivity|]. rewrite append_cons. simpl. rewrite IH. reflexivity. Qed.

Lemma HasPrefix_length s prefix :
  HasPrefix s prefix = true -> (String.length prefix <= String.length s)%nat.
Proof.
  revert s; induction prefix as [|p prefix IH]; intros s; simpl; [lia|].
  destruct s as [|c s]; [intros H; discriminate H|].
  rewrite HasPrefix_cons. destruct (Ascii.eqb c p); [|intros H; discriminate H].
  intros H. apply IH in H. simpl. lia.
Qed.

Lemma app_slash_inj s t : s +:+ "/" = t +:+ "/" -> s = t.
Proof.
  revert t; induction s as [|c s IH]; intros [|d t]; rewrite ?append_cons, ?append_nil_l.
  - reflexivity.
  - intros [= <- H]. destruct t; discriminate H.
  - intros [= -> H]. destruct s; discriminate H.
  - intros [= -> H]. f_equal. apply IH, H.
Qed.

(** The optimized mux has one pattern that ends in a slash, "/api/": it
    redirects the path "/api", and no path it has a handler for. *)
Lemma Optimized_shouldRedirect host path :
  HasPrefix path "/api/" = true \/ path = "/health"%string \/ path = "/metrics"%string ->
  Mux.shouldRedirectRLocked (Optimized.mux E) host path = false.
Proof.
  intros Hp. unfold Mux.shouldRedirectRLocked.
  destruct (List.existsb _ [path; _]); [reflexivity|].
  destruct (String.eqb path ""); [reflexivity|].
  assert (Hno : forall c, (c = path \/ c = (host +:+ path)%string) ->
                  bool_decide (is_Some (Mux.m (Optimized.mux E) !! (c +:+ "/"))) = false).
  { intros c Hc. apply bool_decide_eq_false. rewrite Optimized_mux_lookup.
    intros [e He]. repeat case_decide; try discriminate He.
    - assert (c = "/api"%string) as -> by (apply app_slash_inj; assumption).
      destruct Hp as [Hp | [-> | ->]].
      + apply HasPrefix_length in Hp.
        destruct Hc as [<- | Hc]; [simpl in Hp; lia|].
        apply (f_equal String.length) in Hc. rewrite length_append in Hc.
        simpl in Hc, Hp. lia.
      + destruct Hc as [Hc | Hc]; [discriminate Hc|].
        apply (f_equal String.length) in Hc. rewrite length_append in Hc.
        simpl in Hc. lia.
      + destruct Hc as [Hc | Hc]; [discriminate Hc|].
        apply (f_equal String.length) in Hc. rewrite length_append in Hc.
        simpl in Hc. lia.
    - pose proof (lastByte_app_byte c "/") as Hl.
      match goal with H : (c +:+ "/")%string = _ |- _ => rewrite H in Hl end.
      discriminate Hl.
    - pose proof (lastByte_app_byte c "/") as Hl.
      match goal with H : (c +:+ "/")%string = _ |- _ => rewrite H in Hl end.
      discriminate Hl. }
  simpl. rewrite !Hno by auto. reflexivity.
Qed.

(** A canonical path under "/api/", and the two other registered paths,
    go to their wrapped handler. *)
Lemma Optimized_serve_canonical r s :
  String.eqb (RequestURI r) "*" = false ->
  PathPkg.cleanPath (Url.Path (URL r)) = Url.Path (URL r) ->
  HasPrefix (Url.Path (URL r)) "/api/" = true \/
  Url.Path (URL r) = "/health"%string \/ Url.Path (URL r) = "/metrics"%string ->
  exists next,
    (next = Optimized.blofinProxyOptimized E \/ next = Optimized.healthHandler E \/
     next = Optimized.metricsHandler E) /\
    Optimized.serve E r s = onWriter finishRequest (corsMiddleware next r s).
Proof.
  intros Huri Hclean Hp.
  unfold Optimized.serve, Mux.serverHandler, Mux.ServeHTTP. rewrite Huri. simpl.
  assert (Hh : forall host, exists next,
             (next = Optimized.blofinProxyOptimized E \/ next = Optimized.healthHandler E \/
              next = Optimized.metricsHandler E) /\
             Mux.handler (Optimized.mux E) host (Url.Path (URL r)) = corsMiddleware next).
  { intros host. unfold Mux.handler, Mux.match_.
    change (Mux.hosts (Optimized.mux E)) with false. cbv iota.
    rewrite Optimized_mux_lookup. repeat case_decide; simpl; eauto.
    change (Mux.es (Optimized.mux E))
      with [Mux.mkEntry "/api/" (corsMiddleware (Optimized.blofinProxyOptimized E))].
    cbn [List.find Mux.pattern].
    destruct Hp as [-> | [Hp | Hp]]; [simpl; eauto | congruence | congruence]. }
  unfold Mux.Handler_.
  rewrite !Optimized_shouldRedirect by (rewrite ?Hclean; exact Hp).
  rewrite Hclean, String.eqb_refl. simpl.
  destruct (String.eqb (Method r) "CONNECT");
    [destruct (Hh (Host r)) as (next & Hn & ->) |
     destruct (Hh (stripHostPort E (Host r))) as (next & Hn & ->)]; eauto.
Qed.

End OptimizedRouting.

(** ** The preflight (claim C4) *)

Lemma finishRequest_preflight w : Http.finishRequest (preflight w) = preflight w.
Proof.
  unfold Http.finishRequest, preflight.
  destruct (Wrote_WriteHeader Http.StatusOK
              (Http.setHeader "Access-Control-Max-Age" "86400"
                 (Http.setHeader "Access-Control-Allow-Headers" AllowHeaders
                    (Http.setHeader "Access-Control-Allow-Methods" AllowMethods
                       (Http.setHeader "Access-Control-Allow-Origin" "*" w))))) as [p Hp].
  unfold Http.WriteHeader at 1. rewrite Hp. reflexivity.
Qed.

(** C4, as the code has it: an OPTIONS request that the mux hands to a
    registered handler is answered by [corsMiddleware] alone, with status
    200, an empty body and the four cross-origin headers; the handler
    inside is not run.  The simple variant does so for every canonical
    path, the optimized variant for "/health", "/metrics" and the
    canonical paths under "/api/".  And whatever its path, an OPTIONS
    request makes neither server call the upstream or count a request. *)
Theorem preflight_short_circuit (E : Env) (r : Http.Request) (s : State) :
  Http.Method r = "OPTIONS"%string ->
  W s = Http.newWriter ->
  let ok := preflight Http.newWriter in
  (Http.Wrote ok = Some (Http.StatusOK, Http.WHeader ok) /\
   corsIn (Http.WHeader ok) /\ Http.Written ok = EmptyString) /\
  (forall next, corsMiddleware next r s = onWriter preflight s) /\
  quiet s (Simple.serve E r s) /\
  quiet s (Optimized.serve E r s) /\
  (String.eqb (Http.RequestURI r) "*" = false ->
   PathPkg.cleanPath (Url.Path (Http.URL r)) = Url.Path (Http.URL r) ->
   W (Simple.serve E r s) = ok /\
   (Strings.HasPrefix (Url.Path (Http.URL r)) "/api/" = true \/
    Url.Path (Http.URL r) = "/health"%string \/ Url.Path (Http.URL r) = "/metrics"%string ->
    W (Optimized.serve E r s) = ok)).
Proof.
  intros Hm Hw ok.
  split; [split; [reflexivity | split; [apply corsIn_set | reflexivity]]|].
  split; [intros next; apply corsMiddleware_OPTIONS, Hm|].
  split; [apply quiet_Simple_serve; left; exact Hm|].
  split; [apply quiet_Optimized_serve; left; exact Hm|].
  intros Huri Hclean. split.
  - destruct (Simple_serve_canonical E r s Huri Hclean) as (next & _ & ->).
    rewrite corsMiddleware_OPTIONS by exact Hm. simpl.
    rewrite Hw. apply finishRequest_preflight.
  - intros Hp.
    destruct (Optimized_serve_canonical E r s Huri Hclean Hp) as (next & _ & ->).
    rewrite corsMiddleware_OPTIONS by exact Hm. simpl.
    rewrite Hw. apply finishRequest_preflight.
Qed.

(** A preflight for a path under "/api/", answered by both servers without
    a call to the upstream. *)
Lemma preflight_short_circuit_witness :
  let r := Sample.request "OPTIONS" "/api/v1/market/tickers" "" ∅ in
  Http.Method r = "OPTIONS"%string /\ W Sample.start = Http.newWriter /\
  W (Simple.serve (Sample.up "") r Sample.start) = preflight Http.newWriter /\
  W (Optimized.serve (Sample.up "") r Sample.start) = preflight Http.newWriter /\
  Calls (Optimized.serve (Sample.up "") r Sample.start) = [].
Proof.
  pose proof (preflight_short_circuit (Sample.up "")
                (Sample.request "OPTIONS" "/api/v1/market/tickers" "" ∅) Sample.start
                eq_refl eq_refl) as (_ & _ & _ & [Hq _] & Hc).
  destruct (Hc eq_refl eq_refl) as [H1 H2].
  split; [reflexivity|]. split; [reflexivity|]. split; [exact H1|].
  split; [apply H2; left; reflexivity | exact Hq].
Defined.

(** C4 fails as stated: the optimized variant has no handler for "/nope",
    and answers an OPTIONS request for it with the mux's 404, a body and no
    cross-origin header. *)
Lemma preflight_unknown_route :
  let s' := Optimized.serve (Sample.up "") (Sample.request "OPTIONS" "/nope" "" ∅)
                            Sample.start in
  Sample.statusOf s' = Some 404%Z /\
  Http.Written (W s') = ("404 page not found" +:+ LF)%string /\
  Sample.sentHeader "Access-Control-Allow-Origin" s' = None.
Proof. vm_compute. repeat split. Qed.

(** ** The path "/api" (claim C10) *)

(** C10, as the code has it: a request whose path does not begin with
    "/api/" (the path "/api" is one) makes neither server call the
    upstream; and the simple variant answers the path "/api" with 404
    unless the method is OPTIONS, which the middleware answers with 200
    first.  (For the request target "*" net/http sets the path to "*".) *)
Theorem api_without_slash_not_forwarded (E : Env) (r : Http.Request) (s : State) :
  Strings.HasPrefix (Url.Path (Http.URL r)) "/api/" = false ->
  quiet s (Simple.serve E r s) /\
  quiet s (Optimized.serve E r s) /\
  (Url.Path (Http.URL r) = "/api"%string ->
   String.eqb (Http.RequestURI r) "*" = false ->
   Http.Wrote (W s) = None ->
   exists hdr,
     Http.Wrote (W (Simple.serve E r s))
     = Some (if String.eqb (Http.Method r) "OPTIONS"
             then Http.StatusOK else Http.StatusNotFound, hdr)).
Proof.
  intros Hp. split; [apply quiet_Simple_serve; right; exact Hp|].
  split; [apply quiet_Optimized_serve; right; exact Hp|].
  intros Hpath Huri Hw.
  assert (Hclean : PathPkg.cleanPath (Url.Path (Http.URL r)) = Url.Path (Http.URL r))
    by (rewrite Hpath; reflexivity).
  unfold Simple.serve, Mux.serverHandler, Mux.ServeHTTP. rewrite Huri. simpl.
  unfold Mux.Handler_. rewrite !Simple_shouldRedirect, Hclean, String.eqb_refl. simpl.
  assert (Hh : forall host, Mux.handler (Simple.mux E) host (Url.Path (Http.URL r))
                            = corsMiddleware (Simple.rootHandler E)).
  { intros host. rewrite Hpath. reflexivity. }
  rewrite !Hh. destruct (String.eqb (Http.Method r) "CONNECT") eqn:Hconnect.
  - unfold corsMiddleware.
    destruct (String.eqb (Http.Method r) "OPTIONS") eqn:Hm.
    { apply String.eqb_eq in Hm. rewrite Hm in Hconnect. discriminate Hconnect. }
    unfold Simple.rootHandler. rewrite Hpath. simpl.
    unfold Http.finishRequest, Http.NotFound, Http.Error, Http.Write, Http.WriteHeader; simpl.
    rewrite Hw. simpl. eauto.
  - unfold corsMiddleware.
    destruct (String.eqb (Http.Method r) "OPTIONS") eqn:Hm.
    + simpl. unfold Http.finishRequest, Http.WriteHeader; simpl. rewrite Hw. simpl. eauto.
    + unfold Simple.rootHandler. rewrite Hpath. simpl.
      unfold Http.finishRequest, Http.NotFound, Http.Error, Http.Write, Http.WriteHeader; simpl.
      rewrite Hw. simpl. eauto.
Qed.

(** GET /api: a 404 from the simple server, no call from either. *)
Lemma api_without_slash_not_forwarded_witness :
  let r := Sample.request "GET" "/api" "" ∅ in
  Strings.HasPrefix (Url.Path (Http.URL r)) "/api/" = false /\
  Calls (Simple.serve (Sample.up "") r Sample.start) = [] /\
  Calls (Optimized.serve (Sample.up "") r Sample.start) = [] /\
  exists hdr, Http.Wrote (W (Simple.serve (Sample.up "") r Sample.start))
              = Some (Http.StatusNotFound, hdr).
Proof.
  pose proof (api_without_slash_not_forwarded (Sample.up "")
                (Sample.request "GET" "/api" "" ∅) Sample.start eq_refl)
    as ([H1 _] & [H2 _] & H3).
  split; [reflexivity|]. split; [exact H1|]. split; [exact H2|].
  exact (H3 eq_refl eq_refl eq_refl).
Defined.

(** C10 fails as stated: an OPTIONS request for "/api" gets 200 from the
    simple variant, not 404. *)
Lemma api_without_slash_preflight :
  Sample.statusOf (Simple.serve (Sample.up "") (Sample.request "OPTIONS" "/api" "" ∅)
                                Sample.start) = Some 200%Z.
Proof. vm_compute. reflexivity. Qed.

(** ** The forwarders, side by side *)

Section Forwarders.
Import Http.
Context (E : Env).

Lemma forwarder_Calls v r s :
  Calls (forwarder v E r s)
  = Calls s ++ match outbound E (contextOf v E r) r with
               | Some q => [(clientOf v, q)]
               | None => []
               end.
Proof. destruct v; [apply Simple_blofinProxy_Calls | apply Optimized_blofinProxy_Calls]. Qed.

Lemma forwarder_W v r s :
  W (forwarder v E r s) = answer E (clientOf v) (contextOf v E r) r (W s).
Proof. destruct v; [apply Simple_blofinProxy_W | apply Optimized_blofinProxy_W]. Qed.

Lemma outbound_targetURL ctx r q :
  outbound E ctx r = Some q -> is_Some (targetURL r).
Proof. unfold outbound. destruct (targetURL r); [eauto | discriminate]. Qed.

Lemma outbound_Header ctx r q :
  outbound E ctx r = Some q ->
  Header q = copyHeaders (Range E ForwardLoop (Header r)) ∅ /\ Ctx q = ctx.
Proof.
  unfold outbound. destruct (targetURL r) as [u|]; simpl; [|discriminate].
  destruct (NewRequestWithContext _ _ _ _) as [q0|] eqn:Hq0; simpl; [|discriminate].
  intros [= <-]. apply NewRequestWithContext_Some in Hq0 as (Hh & Hc & _).
  simpl. rewrite Hh. auto.
Qed.

(** What either forwarder logs when the call fails. *)
Lemma forwarder_Log_failure v r s q err :
  outbound E (contextOf v E r) r = Some q ->
  Do E (clientOf v) q = DoErr err ->
  Log (forwarder v E r s)
  = Log s ++ match v with
             | SimpleV => [failureLine err]
             | OptimizedV =>
                 if String.eqb (Getenv E "DEBUG") "true" then [failureLine err] else []
             end.
Proof.
  intros Hq Hdo. destruct v; simpl in *.
  - unfold Simple.blofinProxy, NewRequest. unfold outbound in Hq.
    destruct (targetURL r) as [u|]; simpl in *; [|discriminate].
    destruct (NewRequestWithContext _ _ _ _) as [q0|]; simpl in *; [|discriminate].
    injection Hq as <-. rewrite Hdo. reflexivity.
  - unfold Optimized.blofinProxyOptimized. unfold outbound in Hq.
    destruct (targetURL r) as [u|]; simpl in *; [|discriminate].
    destruct (NewRequestWithContext _ _ _ _) as [q0|]; simpl in *; [|discriminate].
    injection Hq as <-. rewrite Hdo.
    destruct (String.eqb _ "true"); simpl; [reflexivity | rewrite app_nil_r; reflexivity].
Qed.

End Forwarders.

(** ** A failed call (claim C5) *)

(** C5, as the code has it: when the call to the upstream fails, either
    forwarder answers 502 with the fixed text "Proxy request failed", in
    which the error does not appear.  The optimized variant logs the error
    exactly when the environment variable DEBUG is "true"; the simple
    variant, which reads no such variable, logs it every time. *)
Theorem dispatch_failure_is_502 (v : Variant) (E : Env) (r : Http.Request) (s : State)
        (q : Http.Request) (err : string) :
  outbound E (contextOf v E r) r = Some q ->
  Do E (clientOf v) q = Http.DoErr err ->
  let s' := forwarder v E r s in
  W s' = Http.Error "Proxy request failed" Http.StatusBadGateway (W s) /\
  (Http.Wrote (W s) = None ->
   exists hdr, Http.Wrote (W s') = Some (Http.StatusBadGateway, hdr)) /\
  Http.Written (W s') = (Http.Written (W s) +:+ "Proxy request failed" +:+ LF)%string /\
  Log s' = Log s ++ match v with
                    | SimpleV => [failureLine err]
                    | OptimizedV =>
                        if String.eqb (Getenv E "DEBUG") "true"
                        then [failureLine err] else []
                    end.
Proof.
  intros Hq Hdo s'.
  assert (HW : W s' = Http.Error "Proxy request failed" Http.StatusBadGateway (W s)).
  { subst s'. rewrite forwarder_W. unfold answer.
    destruct (outbound_targetURL E _ _ _ Hq) as [u ->].
    rewrite Hq, Hdo. reflexivity. }
  split; [exact HW|]. rewrite HW.
  split; [|split].
  - intros Hw. unfold Http.Error, Http.Write, Http.WriteHeader; simpl.
    rewrite Hw. simpl. eauto.
  - apply Written_Error.
  - exact (forwarder_Log_failure E v r s q err Hq Hdo).
Qed.

(** The optimized variant, upstream down, DEBUG off: 502 and nothing
    logged. *)
Lemma dispatch_failure_is_502_witness :
  let E := Sample.down "false" in
  let r := Sample.request "GET" "/api/v1/market/tickers" "instId=BTC-USDT" ∅ in
  exists q,
    outbound E (contextOf OptimizedV E r) r = Some q /\
    Do E (clientOf OptimizedV) q = Http.DoErr Sample.upstreamError /\
    Sample.statusOf (forwarder OptimizedV E r Sample.start) = Some 502%Z /\
    Log (forwarder OptimizedV E r Sample.start) = [].
Proof.
  intros E r.
  destruct (outbound E (contextOf OptimizedV E r) r) as [q|] eqn:Hq;
    [|vm_compute in Hq; discriminate Hq].
  exists q. split; [reflexivity|]. split; [reflexivity|].
  pose proof (dispatch_failure_is_502 OptimizedV E r Sample.start q Sample.upstreamError
                Hq eq_refl) as (_ & Hst & _ & HL).
  split; [|exact HL].
  unfold Sample.statusOf. destruct (Hst eq_refl) as [hdr ->]. reflexivity.
Defined.

(** C5 fails as stated: with DEBUG set to "false", the simple variant
    still logs the error of the failed call. *)
Lemma simple_variant_logs_without_debug :
  let E := Sample.down "false" in
  let r := Sample.request "GET" "/api/v1/market/tickers" "instId=BTC-USDT" ∅ in
  Getenv E "DEBUG" = "false"%string /\
  Sample.statusOf (Simple.blofinProxy E r Sample.start) = Some 502%Z /\
  Log (Simple.blofinProxy E r Sample.start) = [failureLine Sample.upstreamError].
Proof. vm_compute. repeat split. Qed.

(** ** The request counter (claim C6) *)

(** C6, as the code has it: the optimized forwarder increments the shared
    counter once, as its first statement, for every request that enters
    it, whatever happens next; a request answered 400 or 500 before any
    call to the upstream is counted like the others.  The middleware keeps
    an OPTIONS request out of the forwarder, so it is not counted.  The
    simple forwarder has no counter. *)
Theorem counter_incremented_on_entry (E : Env) (r : Http.Request) (s : State) :
  requestCount (Optimized.blofinProxyOptimized E r s) = wrap64 (requestCount s + 1) /\
  requestCount (corsMiddleware (Optimized.blofinProxyOptimized E) r s)
  = (if String.eqb (Http.Method r) "OPTIONS" then requestCount s
     else wrap64 (requestCount s + 1)) /\
  requestCount (Simple.blofinProxy E r s) = requestCount s.
Proof.
  assert (H1 : forall s0, requestCount (Optimized.blofinProxyOptimized E r s0)
                          = wrap64 (requestCount s0 + 1)).
  { intros s0. unfold Optimized.blofinProxyOptimized.
    destruct (targetURL r) as [u|]; simpl; [|reflexivity].
    destruct (Http.NewRequestWithContext _ _ _ _) as [q|]; simpl; [|reflexivity].
    destruct (Do E _ _) as [resp|err]; simpl.
    - destruct (Http.CopyErr resp); [destruct (String.eqb _ _)|]; reflexivity.
    - destruct (String.eqb _ _); reflexivity. }
  split; [apply H1|]. split.
  - unfold corsMiddleware. destruct (String.eqb (Http.Method r) "OPTIONS");
      [reflexivity | rewrite H1; reflexivity].
  - unfold Simple.blofinProxy.
    destruct (targetURL r) as [u|]; simpl; [|reflexivity].
    destruct (Http.NewRequest _ _ _) as [q|]; simpl; [|reflexivity].
    destruct (Do E _ _) as [resp|err]; simpl; [|reflexivity].
    destruct (Http.CopyErr resp); reflexivity.
Qed.

(** C6 fails as stated: the request line "GET /api/%25zz" arrives with the
    path "/api/%zz"; the target URL does not parse, the optimized variant
    answers 400 without a call to the upstream, and the counter has gone
    from 0 to 1. *)
Lemma counted_before_dispatch :
  let r := Http.mkRequest "GET" (Url.mkURL "" "" "" "/api/%zz" false "" "" false) 1 1 ∅ ""
                          "proxy.example" "/api/%25zz" (Context.mkContext [1%nat] None) in
  let s' := Optimized.serve (Sample.up "") r Sample.start in
  requestCount Sample.start = 0%Z /\
  Sample.statusOf s' = Some 400%Z /\
  Calls s' = [] /\
  requestCount s' = 1%Z.
Proof. vm_compute. repeat split. Qed.

(** ** Deadline and cancellation (claim C7) *)

Section Deadlines.
Import Http Context.

Lemma Done_WithTimeout now parent timeout fired t :
  Done fired t parent = true -> Done fired t (WithTimeout now parent timeout) = true.
Proof.
  unfold Done, WithTimeout, WithDeadline; simpl.
  destruct (List.existsb fired (Signals parent)); [reflexivity|]. simpl.
  destruct (Deadline parent) as [p|]; [|discriminate].
  intros H. apply Z.leb_le in H. apply Z.leb_le. lia.
Qed.

Lemma Deadline_WithTimeout now parent timeout :
  exists d, Deadline (WithTimeout now parent timeout) = Some d /\ (d <= now + timeout)%Z.
Proof.
  unfold WithTimeout, WithDeadline; simpl.
  destruct (Deadline parent) as [p|]; eexists; (split; [reflexivity | lia]).
Qed.

End Deadlines.

(** C7, as the code has it: the optimized forwarder calls the upstream
    with a context derived from the inbound request's context, whose
    deadline is at most 25 seconds after the call to [WithTimeout], and with
    a client whose own timeout is 30 seconds; whenever the inbound context
    is done, the outbound one is.  The simple forwarder's call is bounded by
    its client's timeout of 30 seconds alone: its request carries the
    background context, which the inbound request cannot cancel. *)
Theorem outbound_call_deadline (E : Env) (r : Http.Request) (s : State)
        (v : Variant) (q : Http.Request) :
  outbound E (contextOf v E r) r = Some q ->
  Calls (forwarder v E r s) = Calls s ++ [(clientOf v, q)] /\
  Http.Timeout (clientOf v) = (30 * Second)%Z /\
  match v with
  | OptimizedV =>
      (exists d, Context.Deadline (Http.Ctx q) = Some d /\ (d <= Now E + 25 * Second)%Z) /\
      (forall fired t, Context.Done fired t (Http.Ctx r) = true ->
                       Context.Done fired t (Http.Ctx q) = true)
  | SimpleV => Http.Ctx q = Context.Background
  end.
Proof.
  intros Hq. split; [rewrite forwarder_Calls, Hq; reflexivity|].
  split; [destruct v; reflexivity|].
  apply outbound_Header in Hq as [_ Hctx]. rewrite Hctx.
  destruct v; simpl; [reflexivity|]. split.
  - apply Deadline_WithTimeout.
  - intros fired t. apply Done_WithTimeout.
Qed.

(** The optimized variant at work: the deadline is 25 seconds off. *)
Lemma outbound_call_deadline_witness :
  let E := Sample.up "" in
  let r := Sample.request "GET" "/api/v1/market/tickers" "instId=BTC-USDT" ∅ in
  exists q,
    outbound E (contextOf OptimizedV E r) r = Some q /\
    Calls (forwarder OptimizedV E r Sample.start) = [(Optimized.httpClient, q)] /\
    Context.Deadline (Http.Ctx q) = Some (Now E + 25 * Second)%Z.
Proof.
  intros E r.
  destruct (outbound E (contextOf OptimizedV E r) r) as [q|] eqn:Hq;
    [|vm_compute in Hq; discriminate Hq].
  exists q. split; [reflexivity|].
  pose proof (outbound_call_deadline E r Sample.start OptimizedV q Hq) as (Hc & _ & _).
  split; [exact Hc|].
  apply outbound_Header in Hq as [_ ->]. reflexivity.
Defined.

(** C7 fails as stated: the simple variant builds its request with
    [http.NewRequest], so the call carries the background context; the
    inbound context is done once its signal is raised, the outbound one is
    not. *)
Lemma simple_call_not_cancelled :
  let r := Sample.request "GET" "/api/v1/market/tickers" "instId=BTC-USDT" ∅ in
  let s' := Simple.serve (Sample.up "") r Sample.start in
  map (fun cq => Http.Ctx cq.2) (Calls s') = [Context.Background] /\
  Context.Done (fun _ => true) 0 (Http.Ctx r) = true /\
  forallb (fun cq => negb (Context.Done (fun _ => true) 0 (Http.Ctx cq.2))) (Calls s') = true.
Proof. vm_compute. repeat split. Qed.

(** ** Parsing the target URL (claim C1) *)

Section ParseFacts.
Import Strings Url.

Lemma Count_append a b sep : Count (a +:+ b) sep = (Count a sep + Count b sep)%nat.
Proof.
  induction a as [|c a IH]; [reflexivity|].
  rewrite append_cons. simpl. rewrite IH. lia.
Qed.

Lemma existsb_append p a b : existsb p (a +:+ b) = existsb p a || existsb p b.
Proof.
  induction a as [|c a IH]; [reflexivity|].
  rewrite append_cons. simpl. rewrite IH. apply orb_assoc.
Qed.

Lemma forallb_append p a b : forallb p (a +:+ b) = forallb p a && forallb p b.
Proof.
  induction a as [|c a IH]; [reflexivity|].
  rewrite append_cons. simpl. rewrite IH. apply andb_assoc.
Qed.

(** [Cut] on a string without the separator, and at the first separator. *)
Lemma Cut_absent s sep : Count s sep = 0%nat -> Cut s sep = (s, EmptyString, false).
Proof.
  induction s as [|c s IH]; simpl; [reflexivity|].
  destruct (Ascii.eqb c sep); [discriminate|].
  intros H. rewrite IH by exact H. reflexivity.
Qed.

Lemma Cut_found a b sep :
  Count a sep = 0%nat -> Cut (a +:+ String sep b) sep = (a, b, true).
Proof.
  induction a as [|c a IH]; rewrite ?append_cons, ?append_nil_l; simpl.
  - rewrite Ascii.eqb_refl. reflexivity.
  - destruct (Ascii.eqb c sep); [discriminate|].
    intros H. rewrite IH by exact H. reflexivity.
Qed.

(** What [urlSafe] rules out. *)
Lemma urlSafe_spec s :
  urlSafe s = true ->
  stringContainsCTLByte s = false /\ Count s "#" = 0%nat /\ Count s "?" = 0%nat /\
  Count s "%" = 0%nat.
Proof.
  unfold urlSafe, stringContainsCTLByte.
  induction s as [|c s IH]; simpl; [auto|].
  intros H. apply andb_true_iff in H as [Hc Hs].
  destruct (IH Hs) as (H1 & H2 & H3 & H4). rewrite H1, H2, H3, H4.
  unfold urlSafeByte in Hc.
  destruct (isCTL c), (Ascii.eqb c "#"), (Ascii.eqb c "?"), (Ascii.eqb c "%");
    simpl in Hc; try discriminate Hc; auto.
Qed.

(** Without a percent sign there is nothing to unescape. *)
Lemma unescape_plain s : Count s "%" = 0%nat -> unescape s = Some s.
Proof.
  induction s as [|c s IH]; simpl; [reflexivity|].
  destruct (Ascii.eqb c "%"); [discriminate|].
  intros H. rewrite IH by exact H. reflexivity.
Qed.

(** [getScheme] reads letters up to the colon. *)
Lemma getScheme_loop_letters rawURL acc i scheme rest :
  forallb isLetter scheme = true ->
  (0 < i + String.length scheme)%nat ->
  getScheme_loop rawURL acc i (scheme +:+ String ":" rest) = Some (acc +:+ scheme, rest).
Proof.
  revert acc i. induction scheme as [|c scheme IH]; intros acc i Hl Hi.
  - rewrite append_nil_l. simpl.
    destruct i; [simpl in Hi; lia|].
    replace (acc +:+ "")%string with acc; [reflexivity|].
    clear. induction acc as [|a acc IHa]; [reflexivity|].
    rewrite append_cons, <- IHa. reflexivity.
  - rewrite append_cons. simpl in Hl |- *.
    apply andb_true_iff in Hl as [Hc Hl]. rewrite Hc.
    rewrite IH by (simpl in *; try assumption; lia).
    f_equal. f_equal.
    clear. induction acc as [|a acc IHa]; [reflexivity|].
    rewrite !append_cons, IHa. reflexivity.
Qed.

End ParseFacts.

Section TargetURL.
Import Strings Url.

(** [parse] on the base followed by a rooted safe path. *)
Lemma parse_target p :
  urlSafe p = true ->
  parse (BLOFIN_API_BASE +:+ String "/" p)
  = Some (mkURL "https" "" "openapi.blofin.com" (String "/" p) false "" "" false).
Proof.
  intros Hs. destruct (urlSafe_spec p Hs) as (Hctl & Hhash & Hq & Hpct).
  unfold parse.
  assert (H1 : stringContainsCTLByte (BLOFIN_API_BASE +:+ String "/" p) = false).
  { unfold stringContainsCTLByte in *. rewrite existsb_append. simpl. exact Hctl. }
  rewrite H1.
  change (BLOFIN_API_BASE +:+ String "/" p)
    with ("https" +:+ String ":" ("//openapi.blofin.com" +:+ String "/" p)).
  assert (H2 : String.eqb ("https" +:+ String ":" ("//openapi.blofin.com" +:+ String "/" p))
                          "*" = false) by reflexivity.
  rewrite H2.
  unfold getScheme. rewrite getScheme_loop_letters by (try reflexivity; simpl; lia).
  set (rest := "//openapi.blofin.com" +:+ String "/" p).
  assert (Hc : Count rest "?" = 0%nat).
  { subst rest. rewrite Count_append. simpl. exact Hq. }
  assert (Hcut : Cut rest "?" = (rest, EmptyString, false)) by (apply Cut_absent, Hc).
  assert (Hp1 : HasPrefix rest "/" = true) by reflexivity.
  assert (Hp2 : HasPrefix rest "//" = true) by reflexivity.
  assert (Hauth : Cut (dropBytes 2 rest) "/" = ("openapi.blofin.com"%string, p, true)).
  { subst rest.
    change (dropBytes 2 ("//openapi.blofin.com" +:+ String "/" p))
      with ("openapi.blofin.com" +:+ String "/" p).
    apply Cut_found. reflexivity. }
  clearbody rest.
  cbn [mbind option_bind].
  rewrite Hc, andb_false_r, Hcut, Hp1, Hp2, Hauth.
  change (ToLower ("" +:+ "https")) with "https"%string.
  cbn -[unescape parseAuthority].
  change (parseAuthority "openapi.blofin.com") with (Some "openapi.blofin.com"%string).
  rewrite unescape_plain by (simpl; exact Hpct).
  reflexivity.
Qed.

Lemma Parse_target p :
  urlSafe p = true ->
  Parse (BLOFIN_API_BASE +:+ String "/" p)
  = Some (mkURL "https" "" "openapi.blofin.com" (String "/" p) false "" "" false).
Proof.
  intros Hs. destruct (urlSafe_spec p Hs) as (_ & Hhash & _ & _).
  unfold Parse. rewrite Cut_absent.
  - rewrite parse_target by exact Hs. reflexivity.
  - rewrite Count_append. simpl. exact Hhash.
Qed.

End TargetURL.

(** C1, as the code has it: for an inbound path "/api/" followed by X and
    an inbound raw query Q, with X free of control bytes and of the bytes
    '#', '?' and '%', the target URL is built, its path is the whole inbound
    path, "/api/" followed by X (the prefix is kept, not stripped), and its
    raw query is Q, byte for byte; scheme and host are those of the base. *)
Theorem target_keeps_path_and_query (r : Http.Request) (X Q : string) :
  Url.Path (Http.URL r) = ("/api/" +:+ X)%string ->
  Url.RawQuery (Http.URL r) = Q ->
  urlSafe X = true ->
  targetURL r
  = Some (Url.mkURL "https" "" "openapi.blofin.com" ("/api/" +:+ X) false Q "" false).
Proof.
  intros Hp Hq Hs. unfold targetURL. rewrite Hp, Hq.
  change ("/api/" +:+ X)%string with (String "/" ("api/" +:+ X)).
  rewrite Parse_target; [reflexivity|].
  unfold urlSafe. rewrite forallb_append. simpl. exact Hs.
Qed.

(** The scenario of the specification. *)
Lemma target_keeps_path_and_query_witness :
  let r := Sample.request "GET" "/api/v1/market/tickers" "instId=BTC-USDT" ∅ in
  urlSafe "v1/market/tickers" = true /\
  targetURL r = Some (Url.mkURL "https" "" "openapi.blofin.com" "/api/v1/market/tickers"
                                false "instId=BTC-USDT" "" false).
Proof.
  split; [reflexivity|].
  exact (target_keeps_path_and_query
           (Sample.request "GET" "/api/v1/market/tickers" "instId=BTC-USDT" ∅)
           "v1/market/tickers" "instId=BTC-USDT" eq_refl eq_refl eq_refl).
Defined.

(** C1 fails as stated: for the inbound path "/api/" followed by
    X = "v1/market/tickers" the path of the target URL is the whole inbound
    path, which is neither X nor "/" followed by X. *)
Lemma target_path_is_not_the_suffix :
  let r := Sample.request "GET" "/api/v1/market/tickers" "instId=BTC-USDT" ∅ in
  Url.Path <$> targetURL r = Some "/api/v1/market/tickers"%string /\
  bool_decide (Url.Path <$> targetURL r = Some "v1/market/tickers"%string) = false /\
  bool_decide (Url.Path <$> targetURL r = Some "/v1/market/tickers"%string) = false.
Proof. vm_compute. repeat split. Qed.

(** ** Headers on the way out and back (claims C2, C3, C9) *)

Section HeaderClaims.
Import Http HeaderOps Textproto.
Context (E : Env).

Lemma lacks_Set k key value (h : MIMEHeader) :
  isHopByHopHeader k = true -> isHopByHopHeader key = false ->
  lacks k h -> lacks k (Set_ key value h).
Proof.
  unfold lacks. intros Hk Hkey Hh. rewrite lookup_Set.
  case_decide as Heq; [|exact Hh].
  rewrite <- Heq, isHopByHopHeader_Canonical in Hk. congruence.
Qed.

(** A wrapped handler on a fresh writer sends no hop-by-hop header if the
    handler inside adds none. *)
Lemma corsMiddleware_lacks k (next : Handler) r s :
  isHopByHopHeader k = true ->
  W s = newWriter ->
  (forall s', sent (lacks k) (W s') -> sent (lacks k) (W (next r s'))) ->
  sent (lacks k) (W (corsMiddleware next r s)).
Proof.
  intros Hk Hw Hnext.
  assert (H4 : forall w, w = newWriter ->
             sent (lacks k)
               (setHeader "Access-Control-Max-Age" "86400"
                  (setHeader "Access-Control-Allow-Headers" AllowHeaders
                     (setHeader "Access-Control-Allow-Methods" AllowMethods
                        (setHeader "Access-Control-Allow-Origin" "*" w))))).
  { intros w ->. split; [|discriminate]. simpl.
    repeat (apply lacks_Set; [exact Hk | reflexivity |]). reflexivity. }
  pose proof (HeaderInv_lacks k Hk) as Hinv.
  destruct (String.eqb (Method r) "OPTIONS") eqn:Hm.
  - apply String.eqb_eq in Hm. rewrite corsMiddleware_OPTIONS by exact Hm.
    simpl. unfold preflight. apply sent_WriteHeader; try exact Hinv. apply H4, Hw.
  - rewrite corsMiddleware_other by exact Hm. apply Hnext. simpl. apply H4, Hw.
Qed.

(** The calls a registered handler adds: none, or the one its forwarder
    makes. *)
Lemma registered_Calls v r s :
  Calls (registered v E r s) = Calls s \/
  exists q, outbound E (contextOf v E r) r = Some q /\
            Calls (registered v E r s) = Calls s ++ [(clientOf v, q)].
Proof.
  destruct (String.eqb (Method r) "OPTIONS") eqn:Hm.
  - left. apply String.eqb_eq in Hm. destruct v; simpl;
      rewrite corsMiddleware_OPTIONS by exact Hm; reflexivity.
  - destruct v; simpl; rewrite corsMiddleware_other by exact Hm.
    + unfold Simple.rootHandler.
      destruct (String.eqb _ "/"); [left; reflexivity|].
      destruct (Strings.HasPrefix _ _); [|left; reflexivity].
      pose proof (forwarder_Calls E SimpleV r) as Hc. simpl in Hc. rewrite Hc. simpl.
      destruct (outbound E Context.Background r) as [q|];
        [right; eauto | left; apply app_nil_r].
    + pose proof (forwarder_Calls E OptimizedV r) as Hc. simpl in Hc. rewrite Hc. simpl.
      destruct (outbound E _ r) as [q|]; [right; eauto | left; apply app_nil_r].
Qed.

End HeaderClaims.

(** C2: a header whose name is, up to the case of its letters, one of
    Connection, Keep-Alive, Proxy-Authenticate, Proxy-Authorization, TE,
    Trailers, Transfer-Encoding, Upgrade is on no request either program
    sends to the upstream and in no response its registered handler writes
    on a fresh writer, whatever the inbound request and the upstream's
    response carry. *)
Theorem hop_by_hop_headers_stripped (v : Variant) (E : Env) (r : Http.Request) (s : State)
        (name k : string) :
  In name hopByHopHeaders ->
  Strings.ToLower k = Strings.ToLower name ->
  W s = Http.newWriter ->
  let s' := registered v E r s in
  (forall c q, In (c, q) (Calls s') -> In (c, q) (Calls s) \/ Http.Header q !! k = None) /\
  sent (lacks k) (W s').
Proof.
  intros Hname Hlow Hw s'.
  assert (Hk : isHopByHopHeader k = true) by (apply isHopByHopHeader_spec; eauto).
  split.
  - intros c q Hin. subst s'.
    destruct (registered_Calls E v r s) as [Hc | (q' & Hq' & Hc)]; rewrite Hc in Hin.
    + left; exact Hin.
    + apply in_app_or in Hin as [Hin | [[= <- <-] | []]]; [left; exact Hin|].
      right. apply outbound_Header in Hq' as [-> _].
      rewrite copyHeaders_hop by exact Hk. reflexivity.
  - subst s'. pose proof (HeaderInv_lacks k Hk) as Hinv.
    destruct v; simpl; apply corsMiddleware_lacks; try assumption; intros s1 Hs1.
    + apply sent_Simple_rootHandler; assumption.
    + apply sent_Optimized_blofinProxy; assumption.
Qed.

(** Hop-by-hop headers on both sides of the optimized variant: the inbound
    request has "Connection", the upstream's response "Transfer-Encoding";
    neither goes through. *)
Lemma hop_by_hop_headers_stripped_witness :
  let E := Sample.up "" in
  let r := Sample.request "GET" "/api/v1/market/tickers" ""
             (<["Connection" := ["close"]]> (<["Access-Key" := ["abc"]]> ∅)) in
  let s' := registered OptimizedV E r Sample.start in
  In "Connection"%string hopByHopHeaders /\
  In "Transfer-Encoding"%string hopByHopHeaders /\
  length (Calls s') = 1%nat /\
  (forall c q, In (c, q) (Calls s') -> Http.Header q !! "Connection" = None) /\
  sent (lacks "Transfer-Encoding") (W s').
Proof.
  intros E r s'.
  split; [vm_compute; tauto|]. split; [vm_compute; tauto|].
  split; [vm_compute; reflexivity|]. split.
  - intros c q Hin.
    destruct (hop_by_hop_headers_stripped OptimizedV E r Sample.start
                "Connection" "Connection") as [H _];
      [vm_compute; tauto | reflexivity | reflexivity |].
    destruct (H c q Hin) as [[] | Hq]. exact Hq.
  - apply (hop_by_hop_headers_stripped OptimizedV E r Sample.start
             "Transfer-Encoding" "Transfer-Encoding");
      [vm_compute; tauto | reflexivity | reflexivity].
Defined.

Section ForwardedValues.
Import Http HeaderOps Textproto.
Context (E : Env).

(** The loop visits each entry of the map once. *)
Lemma Range_elem loop (h : MIMEHeader) name values :
  h !! name = Some values -> (name, values) ∈ Range E loop h.
Proof. intros H. rewrite Range_perm. apply elem_of_map_to_list, H. Qed.

Lemma Range_In loop (h : MIMEHeader) name values :
  In (name, values) (Range E loop h) -> h !! name = Some values.
Proof.
  intros H. apply list_elem_of_In in H. rewrite Range_perm in H.
  apply elem_of_map_to_list, H.
Qed.

Lemma Range_NoDup loop (h : MIMEHeader) : NoDup (Range E loop h).*1.
Proof. rewrite Range_perm. apply NoDup_fst_map_to_list. Qed.

(** Entries under other names that feed no value to the key of [name]. *)
Lemma feeds_none (h : MIMEHeader) name l :
  (forall name' values', h !! name' = Some values' ->
     CanonicalMIMEHeaderKey name' = CanonicalMIMEHeaderKey name -> name' = name) ->
  (forall e, e ∈ l -> h !! e.1 = Some e.2) ->
  name ∉ l.*1 ->
  filter (fun e => feeds (CanonicalMIMEHeaderKey name) e = true) l = [].
Proof.
  intros Huniq Hl Hname. induction l as [|[n vs] l IH]; [reflexivity|].
  rewrite filter_cons. simpl in Hname. apply not_elem_of_cons in Hname as [Hn Hname].
  destruct (decide _) as [Hf|Hf].
  - exfalso. unfold feeds in Hf; simpl in Hf.
    apply andb_true_iff in Hf as [_ Hf]. apply bool_decide_eq_true in Hf.
    apply Hn. symmetry. apply (Huniq n vs); [|exact Hf].
    apply (Hl (n, vs)). left.
  - apply IH; [|exact Hname]. intros e He. apply Hl. right. exact He.
Qed.

(** The values the outbound request has under the key of [name]. *)
Lemma outbound_values ctx r q name values :
  outbound E ctx r = Some q ->
  Header r !! name = Some values ->
  isHopByHopHeader name = false ->
  (exists pre post, Values name (Header q) = pre ++ values ++ post) /\
  ((forall name' values', Header r !! name' = Some values' ->
      CanonicalMIMEHeaderKey name' = CanonicalMIMEHeaderKey name -> name' = name) ->
   Values name (Header q) = values).
Proof.
  intros Hq Hname Hhop. apply outbound_Header in Hq as [Hq _].
  unfold Values. rewrite Hq, values_copyHeaders, lookup_empty. simpl.
  pose proof (Range_elem ForwardLoop _ _ _ Hname) as Hin.
  pose proof (Range_NoDup ForwardLoop (Header r)) as Hnd.
  assert (Hall : forall e, e ∈ Range E ForwardLoop (Header r) -> Header r !! e.1 = Some e.2).
  { intros [n vs] He. apply (Range_In ForwardLoop), list_elem_of_In, He. }
  apply list_elem_of_split in Hin as (l1 & l2 & Hl). rewrite Hl in *.
  assert (Hf : feeds (CanonicalMIMEHeaderKey name) (name, values) = true).
  { unfold feeds; simpl. rewrite Hhop. simpl. apply bool_decide_eq_true. reflexivity. }
  rewrite filter_app, filter_cons, decide_True by exact Hf.
  rewrite map_app, concat_app. simpl.
  split; [eauto|].
  intros Huniq.
  rewrite fmap_app in Hnd. simpl in Hnd.
  apply NoDup_app in Hnd as (_ & Hdisj & Hnd2).
  apply NoDup_cons in Hnd2 as [Hn2 _].
  rewrite (feeds_none (Header r) name l1), (feeds_none (Header r) name l2); try assumption.
  - simpl. apply app_nil_r.
  - intros e He. apply Hall. apply elem_of_app. right. right. exact He.
  - intros e He. apply Hall. apply elem_of_app. left. exact He.
  - intros Hn1. apply (Hdisj name Hn1). left.
Qed.

(** A map whose keys are all in canonical form, as the maps net/http reads
    off the wire are, has no two names with the same canonical form. *)
Lemma canonical_keys_distinct (h : MIMEHeader) name :
  (forall k vs, h !! k = Some vs -> CanonicalMIMEHeaderKey k = k) ->
  is_Some (h !! name) ->
  forall name' values', h !! name' = Some values' ->
    CanonicalMIMEHeaderKey name' = CanonicalMIMEHeaderKey name -> name' = name.
Proof.
  intros Hcanon [vs Hname] name' values' Hname' Heq.
  rewrite (Hcanon _ _ Hname), (Hcanon _ _ Hname') in Heq. exact Heq.
Qed.

End ForwardedValues.

(** C3: when a forwarder calls the upstream, every inbound header that is
    not hop-by-hop is on the outbound request, under the canonical form of
    its name: its values are there unchanged, next to each other, in the
    inbound order and as many times as inbound.  They are all there is
    under that key unless the inbound map has another name with the same
    canonical form, which the maps net/http builds, whose keys are
    canonical, do not have. *)
Theorem forwarded_values_preserved (v : Variant) (E : Env) (r : Http.Request) (s : State)
        (q : Http.Request) (name : string) (values : list string) :
  outbound E (contextOf v E r) r = Some q ->
  Http.Header r !! name = Some values ->
  isHopByHopHeader name = false ->
  Calls (forwarder v E r s) = Calls s ++ [(clientOf v, q)] /\
  (exists pre post, HeaderOps.Values name (Http.Header q) = pre ++ values ++ post) /\
  ((forall name' values', Http.Header r !! name' = Some values' ->
      Textproto.CanonicalMIMEHeaderKey name' = Textproto.CanonicalMIMEHeaderKey name ->
      name' = name) ->
   HeaderOps.Values name (Http.Header q) = values).
Proof.
  intros Hq Hname Hhop.
  split; [rewrite forwarder_Calls, Hq; reflexivity|].
  exact (outbound_values E _ r q name values Hq Hname Hhop).
Qed.

(** A header with two values, next to a hop-by-hop header. *)
Lemma forwarded_values_preserved_witness :
  let E := Sample.up "" in
  let hdr : MIMEHeader :=
    <["Connection" := ["close"]]> (<["Access-Key" := ["abc"; "abc"; "xyz"]]> ∅) in
  let r := Sample.request "GET" "/api/v1/market/tickers" "" hdr in
  exists q,
    outbound E (contextOf SimpleV E r) r = Some q /\
    Http.Header r !! "Access-Key" = Some ["abc"; "abc"; "xyz"]%string /\
    isHopByHopHeader "Access-Key" = false /\
    Calls (forwarder SimpleV E r Sample.start) = [(clientOf SimpleV, q)] /\
    HeaderOps.Values "Access-Key" (Http.Header q) = ["abc"; "abc"; "xyz"]%string.
Proof.
  intros E hdr r.
  destruct (outbound E (contextOf SimpleV E r) r) as [q|] eqn:Hq;
    [|vm_compute in Hq; discriminate Hq].
  exists q. split; [reflexivity|]. split; [reflexivity|]. split; [reflexivity|].
  destruct (forwarded_values_preserved SimpleV E r Sample.start q
              "Access-Key" ["abc"; "abc"; "xyz"]%string Hq eq_refl eq_refl)
    as (Hc & _ & Hv).
  split; [exact Hc|]. apply Hv.
  intros name' values' Hl Hk.
  subst hdr r. simpl in Hl.
  apply lookup_insert_Some in Hl as [[<- _] | [_ Hl]]; [discriminate Hk|].
  apply lookup_insert_Some in Hl as [[<- _] | [_ Hl]]; [reflexivity|].
  rewrite lookup_empty in Hl. discriminate Hl.
Defined.

Section CanonicalNames.
Import Strings Http HeaderOps Textproto.

Lemma isLower_toUpperByte c : isLower (toUpperByte c) = false.
Proof. destruct c as [[] [] [] [] [] [] [] []]; reflexivity. Qed.

Lemma isUpper_toLowerByte c : isUpper (toLowerByte c) = false.
Proof. destruct c as [[] [] [] [] [] [] [] []]; reflexivity. Qed.

(** What the rewriting loop produces has the canonical shape. *)
Lemma canonicalShape_canonicalize upper s :
  canonicalShape upper (canonicalize upper s) = true.
Proof.
  revert upper; induction s as [|c s IH]; intros upper; simpl; [reflexivity|].
  rewrite IH, andb_true_r.
  destruct upper; [rewrite isLower_toUpperByte | rewrite isUpper_toLowerByte]; reflexivity.
Qed.

End CanonicalNames.

(** C9: when a forwarder calls the upstream, an inbound header that is not
    hop-by-hop, has a value and has a field name made of token bytes is on
    the outbound request under the canonical form of its name, with the
    first letter and each letter after a hyphen in upper case and every
    other letter in lower case; the key differs from the inbound name in
    the case of letters only, and a name that is not in canonical form is
    not a key of the outbound request. *)
Theorem forwarded_names_canonical (v : Variant) (E : Env) (r : Http.Request) (s : State)
        (q : Http.Request) (name : string) (values : list string) :
  outbound E (contextOf v E r) r = Some q ->
  Http.Header r !! name = Some values ->
  values <> [] ->
  isHopByHopHeader name = false ->
  Strings.forallb Textproto.validHeaderFieldByte name = true ->
  let key := Textproto.canonicalize true name in
  Calls (forwarder v E r s) = Calls s ++ [(clientOf v, q)] /\
  (exists pre post, Http.Header q !! key = Some (pre ++ values ++ post)) /\
  canonicalShape true key = true /\
  Strings.ToLower key = Strings.ToLower name /\
  (name <> key -> Http.Header q !! name = None).
Proof.
  intros Hq Hname Hvalues Hhop Hvalid key.
  assert (Hkey : Textproto.CanonicalMIMEHeaderKey name = key).
  { unfold Textproto.CanonicalMIMEHeaderKey. rewrite Hvalid. reflexivity. }
  split; [rewrite forwarder_Calls, Hq; reflexivity|].
  split; [|split; [apply canonicalShape_canonicalize|split; [apply ToLower_canonicalize|]]].
  - destruct (outbound_values E _ r q name values Hq Hname Hhop) as [(pre & post & Hv) _].
    exists pre, post. unfold HeaderOps.Values in Hv. rewrite Hkey in Hv.
    destruct (Http.Header q !! key) as [vs|]; simpl in Hv; [congruence|].
    destruct pre; destruct values; simpl in Hv; congruence.
  - intros Hne. apply outbound_Header in Hq as [Hq _]. rewrite Hq.
    apply eq_None_not_Some. intros Hsome.
    apply is_Some_copyHeaders in Hsome as [Hsome | (n & vs & _ & _ & _ & Hn)].
    + rewrite lookup_empty in Hsome. destruct Hsome as [? [=]].
    + apply Hne. rewrite <- Hkey, Hn. symmetry. apply Canonical_idem.
Qed.

(** A lower-case inbound name: it goes out as "Access-Key", and not as
    "access-key". *)
Lemma forwarded_names_canonical_witness :
  let E := Sample.up "" in
  let r := Sample.request "GET" "/api/v1/market/tickers" ""
             (<["access-key" := ["abc"]]> ∅) in
  exists q,
    outbound E (contextOf OptimizedV E r) r = Some q /\
    Http.Header r !! "access-key" = Some ["abc"%string] /\
    Http.Header q !! "Access-Key" = Some ["abc"%string] /\
    Http.Header q !! "access-key" = None.
Proof.
  intros E r.
  destruct (outbound E (contextOf OptimizedV E r) r) as [q|] eqn:Hq;
    [|vm_compute in Hq; discriminate Hq].
  exists q. split; [reflexivity|]. split; [reflexivity|].
  destruct (forwarded_names_canonical OptimizedV E r Sample.start q
              "access-key" ["abc"%string] Hq eq_refl ltac:(discriminate) eq_refl eq_refl)
    as (_ & _ & _ & _ & Hnone).
  split; [|apply Hnone; discriminate].
  apply outbound_Header in Hq as [-> _]. vm_compute. reflexivity.
Defined.

(** * Further properties of the two programs *)

(** ** The relay of a successful call *)

Section Relay.
Import Http HeaderOps Textproto.
Context (E : Env).

(** What either forwarder answers when the call succeeds. *)
Lemma forwarder_W_success v r s q resp :
  outbound E (contextOf v E r) r = Some q ->
  Do E (clientOf v) q = DoOk resp ->
  W (forwarder v E r s) = relayResponse E resp (W s).
Proof.
  intros Hq Hdo. rewrite forwarder_W. unfold answer.
  destruct (outbound_targetURL E _ _ _ Hq) as [u ->].
  rewrite Hq, Hdo. reflexivity.
Qed.

Lemma relayResponse_fresh resp w :
  Wrote w = None ->
  Wrote (relayResponse E resp w)
  = Some (StatusCode resp, copyHeaders (Range E RelayLoop (RespHeader resp)) (WHeader w)) /\
  Written (relayResponse E resp w) = (Written w +:+ RespBody resp)%string.
Proof.
  intros Hw. unfold relayResponse, Write, WriteHeader; simpl. rewrite Hw. simpl. auto.
Qed.

(** The values the loop leaves under the key of a name that no other name
    of the source map shares its canonical form with. *)
Lemma copied_values loop (src dst : MIMEHeader) name values :
  src !! name = Some values ->
  isHopByHopHeader name = false ->
  (forall name' values', src !! name' = Some values' ->
     CanonicalMIMEHeaderKey name' = CanonicalMIMEHeaderKey name -> name' = name) ->
  default [] (copyHeaders (Range E loop src) dst !! CanonicalMIMEHeaderKey name)
  = default [] (dst !! CanonicalMIMEHeaderKey name) ++ values.
Proof.
  intros Hname Hhop Huniq. rewrite values_copyHeaders. f_equal.
  pose proof (Range_elem E loop _ _ _ Hname) as Hin.
  pose proof (Range_NoDup E loop src) as Hnd.
  assert (Hall : forall e, e ∈ Range E loop src -> src !! e.1 = Some e.2).
  { intros [n vs] He. apply (Range_In E loop), list_elem_of_In, He. }
  apply list_elem_of_split in Hin as (l1 & l2 & Hl). rewrite Hl in *.
  assert (Hf : feeds (CanonicalMIMEHeaderKey name) (name, values) = true).
  { unfold feeds; simpl. rewrite Hhop. simpl. apply bool_decide_eq_true. reflexivity. }
  rewrite filter_app, filter_cons, decide_True by exact Hf.
  rewrite fmap_app in Hnd. simpl in Hnd.
  apply NoDup_app in Hnd as (_ & Hdisj & Hnd2).
  apply NoDup_cons in Hnd2 as [Hn2 _].
  rewrite (feeds_none src name l1), (feeds_none src name l2); try assumption.
  - simpl. apply app_nil_r.
  - intros e He. apply Hall. apply elem_of_app. right. right. exact He.
  - intros e He. apply Hall. apply elem_of_app. left. exact He.
  - intros Hn1. apply (Hdisj name Hn1). left.
Qed.

End Relay.



(** X2: the relay adds the upstream's headers with [Add], after whatever
    the writer already holds under the same key.  So for an upstream header
    that is not hop-by-hop (and whose canonical key no other upstream name
    shares), the client is sent the writer's earlier values followed by the
    upstream's values; an upstream Access-Control-Allow-Origin does not
    replace the wildcard the middleware set, it follows it. *)
Theorem relay_appends_upstream_values (v : Variant) (E : Env) (r : Http.Request) (s : State)
        (q : Http.Request) (resp : Http.Response) (name : string) (values : list string) :
  outbound E (contextOf v E r) r = Some q ->
  Do E (clientOf v) q = Http.DoOk resp ->
  Http.Wrote (W s) = None ->
  Http.RespHeader resp !! name = Some values ->
  isHopByHopHeader name = false ->
  (forall name' values', Http.RespHeader resp !! name' = Some values' ->
     Textproto.CanonicalMIMEHeaderKey name' = Textproto.CanonicalMIMEHeaderKey name ->
     name' = name) ->
  exists hdr,
    headerSent (W (forwarder v E r s)) = Some hdr /\
    HeaderOps.Values name hdr = HeaderOps.Values name (Http.WHeader (W s)) ++ values.
Proof.
  intros Hq Hdo Hw Hname Hhop Huniq.
  rewrite (forwarder_W_success E v r s q resp Hq Hdo).
  destruct (relayResponse_fresh E resp (W s) Hw) as [H1 _].
  unfold headerSent. rewrite H1. simpl. eexists. split; [reflexivity|].
  unfold HeaderOps.Values. apply copied_values; assumption.
Qed.

Lemma relay_appends_upstream_values_witness :
  let E := Sample.answering Sample.originResponse in
  let r := Sample.request "GET" "/api/v1/market/tickers" "" ∅ in
  let s := onWriter (Http.setHeader "Access-Control-Allow-Origin" "*") Sample.start in
  exists q hdr,
    outbound E (contextOf OptimizedV E r) r = Some q /\
    headerSent (W (forwarder OptimizedV E r s)) = Some hdr /\
    HeaderOps.Values "Access-Control-Allow-Origin" hdr = ["*"; "https://app.example"]%string.
Proof.
  intros E r s.
  destruct (outbound E (contextOf OptimizedV E r) r) as [q|] eqn:Hq;
    [|vm_compute in Hq; discriminate Hq].
  destruct (relay_appends_upstream_values OptimizedV E r s q Sample.originResponse
              "Access-Control-Allow-Origin" ["https://app.example"%string]
              Hq eq_refl eq_refl eq_refl eq_refl) as (hdr & Hh & Hv).
  - intros name' values' Hl _. simpl in Hl.
    apply lookup_insert_Some in Hl as [[<- _] | [_ Hl]]; [reflexivity|].
    rewrite lookup_empty in Hl. discriminate Hl.
  - exists q, hdr. split; [reflexivity|]. split; [exact Hh|]. exact Hv.
Defined.

(** ** The two failures before the call *)

Section BeforeTheCall.
Import Strings Http Url.
Context (E : Env).

Lemma Cut_append a b sep :
  Count a sep = 0%nat ->
  Cut (a +:+ b) sep = ((a +:+ (Cut b sep).1.1)%string, (Cut b sep).1.2, (Cut b sep).2).
Proof.
  induction a as [|c a IH]; rewrite ?append_cons, ?append_nil_l; simpl.
  - intros _. destruct (Cut b sep) as [[x y] z]. reflexivity.
  - destruct (Ascii.eqb c sep); [discriminate|].
    intros H. rewrite IH by exact H. reflexivity.
Qed.

(** A control byte before the first '#' of the path makes [url.Parse] fail. *)
Lemma targetURL_control_byte r :
  stringContainsCTLByte (Cut (Url.Path (Http.URL r)) "#").1.1 = true -> targetURL r = None.
Proof.
  intros Hctl. unfold targetURL, Parse.
  rewrite Cut_append by reflexivity. cbn [mbind option_bind].
  unfold parse. unfold stringContainsCTLByte in *.
  rewrite existsb_append, Hctl, orb_true_r. reflexivity.
Qed.

(** [parse] on the base followed by a rooted path without control bytes and
    question marks: all that is left to fail is the unescaping. *)
Lemma parse_rooted p :
  stringContainsCTLByte p = false -> Count p "?" = 0%nat ->
  parse (BLOFIN_API_BASE +:+ String "/" p)
  = path ← unescape (String "/" p);
    Some (mkURL "https" "" "openapi.blofin.com" path false "" "" false).
Proof.
  intros Hctl Hq. unfold parse.
  assert (H1 : stringContainsCTLByte (BLOFIN_API_BASE +:+ String "/" p) = false).
  { unfold stringContainsCTLByte in *. rewrite existsb_append. simpl. exact Hctl. }
  rewrite H1.
  change (BLOFIN_API_BASE +:+ String "/" p)
    with ("https" +:+ String ":" ("//openapi.blofin.com" +:+ String "/" p)).
  assert (H2 : String.eqb ("https" +:+ String ":" ("//openapi.blofin.com" +:+ String "/" p))
                          "*" = false) by reflexivity.
  rewrite H2.
  unfold getScheme. rewrite getScheme_loop_letters by (try reflexivity; simpl; lia).
  set (rest := "//openapi.blofin.com" +:+ String "/" p).
  assert (Hc : Count rest "?" = 0%nat).
  { subst rest. rewrite Count_append. simpl. exact Hq. }
  assert (Hcut : Cut rest "?" = (rest, EmptyString, false)) by (apply Cut_absent, Hc).
  assert (Hp1 : HasPrefix rest "/" = true) by reflexivity.
  assert (Hp2 : HasPrefix rest "//" = true) by reflexivity.
  assert (Hauth : Cut (dropBytes 2 rest) "/" = ("openapi.blofin.com"%string, p, true)).
  { subst rest.
    change (dropBytes 2 ("//openapi.blofin.com" +:+ String "/" p))
      with ("openapi.blofin.com" +:+ String "/" p).
    apply Cut_found. reflexivity. }
  clearbody rest.
  cbn [mbind option_bind].
  rewrite Hc, andb_false_r, Hcut, Hp1, Hp2, Hauth.
  change (ToLower ("" +:+ "https")) with "https"%string.
  cbn -[unescape parseAuthority].
  change (parseAuthority "openapi.blofin.com") with (Some "openapi.blofin.com"%string).
  reflexivity.
Qed.

(** A percent sign that does not start an escape makes [url.Parse] fail. *)
Lemma targetURL_bad_escape r p :
  Url.Path (Http.URL r) = String "/" p ->
  stringContainsCTLByte p = false -> Count p "?" = 0%nat -> Count p "#" = 0%nat ->
  unescape p = None ->
  targetURL r = None.
Proof.
  intros Hp Hctl Hq Hh Hun. unfold targetURL, Parse. rewrite Hp.
  rewrite Cut_absent by (rewrite Count_append; simpl; exact Hh).
  rewrite parse_rooted by assumption.
  simpl. rewrite Hun. reflexivity.
Qed.

Lemma forwarder_no_outbound v r s :
  outbound E (contextOf v E r) r = None -> Calls (forwarder v E r s) = Calls s.
Proof. intros H. rewrite forwarder_Calls, H. apply app_nil_r. Qed.

Lemma forwarder_Log_no_outbound v r s :
  outbound E (contextOf v E r) r = None -> Log (forwarder v E r s) = Log s.
Proof.
  unfold outbound. destruct v; simpl.
  - unfold Simple.blofinProxy, NewRequest.
    destruct (targetURL r) as [u|]; simpl; [|reflexivity].
    destruct (NewRequestWithContext _ _ _ _) as [q0|]; simpl; [discriminate | reflexivity].
  - unfold Optimized.blofinProxyOptimized.
    destruct (targetURL r) as [u|]; simpl; [|reflexivity].
    destruct (NewRequestWithContext _ _ _ _) as [q0|]; simpl; [discriminate | reflexivity].
Qed.

End BeforeTheCall.

(** X3: a path that cannot be made into a URL is answered 400 with the body
    "Invalid URL", without a call to the upstream and without a log line,
    by either forwarder.  That is the case when the path has a control byte
    before its first '#', and when a rooted path free of control bytes, '#'
    and '?' has a percent sign that is not followed by two hexadecimal
    digits. *)
Theorem malformed_target_is_400 (v : Variant) (E : Env) (r : Http.Request) (s : State) :
  Url.stringContainsCTLByte (Strings.Cut (Url.Path (Http.URL r)) "#").1.1 = true \/
  (exists p, Url.Path (Http.URL r) = String "/" p /\
             Url.stringContainsCTLByte p = false /\
             Strings.Count p "?" = 0%nat /\ Strings.Count p "#" = 0%nat /\
             Url.unescape p = None) ->
  W (forwarder v E r s) = Http.Error "Invalid URL" Http.StatusBadRequest (W s) /\
  (Http.Wrote (W s) = None ->
   statusSent (W (forwarder v E r s)) = Some Http.StatusBadRequest) /\
  Http.Written (W (forwarder v E r s)) = (Http.Written (W s) +:+ "Invalid URL" +:+ LF)%string /\
  Calls (forwarder v E r s) = Calls s /\
  Log (forwarder v E r s) = Log s.
Proof.
  intros Hbad.
  assert (Ht : targetURL r = None).
  { destruct Hbad as [Hctl | (p & Hp & Hctl & Hq & Hh & Hun)];
      [apply targetURL_control_byte, Hctl | eapply targetURL_bad_escape; eassumption]. }
  assert (Ho : outbound E (contextOf v E r) r = None) by (unfold outbound; rewrite Ht; reflexivity).
  assert (HW : W (forwarder v E r s) = Http.Error "Invalid URL" Http.StatusBadRequest (W s)).
  { rewrite forwarder_W. unfold answer. rewrite Ht. reflexivity. }
  split; [exact HW|]. rewrite HW.
  split; [|split; [apply Written_Error|split]].
  - intros Hw. unfold statusSent, Http.Error, Http.Write, Http.WriteHeader; simpl.
    rewrite Hw. reflexivity.
  - apply forwarder_no_outbound, Ho.
  - apply forwarder_Log_no_outbound, Ho.
Qed.

(** The request line "GET /api/%25zz": the path arrives as "/api/%zz". *)
Lemma malformed_target_is_400_witness :
  let r := Sample.request "GET" "/api/%zz" "" ∅ in
  statusSent (W (forwarder OptimizedV (Sample.up "") r Sample.start)) = Some 400%Z /\
  Calls (forwarder OptimizedV (Sample.up "") r Sample.start) = [].
Proof.
  intros r.
  destruct (malformed_target_is_400 OptimizedV (Sample.up "") r Sample.start)
    as (_ & Hst & _ & Hc & _).
  - right. exists "api/%zz"%string. repeat split; reflexivity.
  - split; [apply Hst; reflexivity | exact Hc].
Defined.

(** X4: a request whose method is not a token (and not empty, which stands
    for GET) cannot be made into an outbound request: when the target URL
    parses, either forwarder answers 500 with the body "Failed to create
    proxy request", without a call to the upstream. *)
Theorem invalid_method_is_500 (v : Variant) (E : Env) (r : Http.Request) (s : State) :
  is_Some (targetURL r) ->
  Http.Method r <> EmptyString ->
  Http.validMethod (Http.Method r) = false ->
  W (forwarder v E r s)
  = Http.Error "Failed to create proxy request" Http.StatusInternalServerError (W s) /\
  (Http.Wrote (W s) = None ->
   statusSent (W (forwarder v E r s)) = Some Http.StatusInternalServerError) /\
  Calls (forwarder v E r s) = Calls s.
Proof.
  intros [u Hu] Hne Hinvalid.
  assert (Ho : outbound E (contextOf v E r) r = None).
  { unfold outbound. rewrite Hu. simpl. unfold Http.NewRequestWithContext.
    apply String.eqb_neq in Hne. rewrite Hne, Hinvalid. reflexivity. }
  assert (HW : W (forwarder v E r s)
               = Http.Error "Failed to create proxy request"
                            Http.StatusInternalServerError (W s)).
  { rewrite forwarder_W. unfold answer. rewrite Hu, Ho. reflexivity. }
  split; [exact HW|]. rewrite HW. split.
  - intros Hw. unfold statusSent, Http.Error, Http.Write, Http.WriteHeader; simpl.
    rewrite Hw. reflexivity.
  - apply forwarder_no_outbound, Ho.
Qed.

Lemma invalid_method_is_500_witness :
  let r := Sample.request "GE T" "/api/v1/market/tickers" "" ∅ in
  is_Some (targetURL r) /\
  statusSent (W (forwarder SimpleV (Sample.up "") r Sample.start)) = Some 500%Z /\
  Calls (forwarder SimpleV (Sample.up "") r Sample.start) = [].
Proof.
  intros r.
  assert (Ht : is_Some (targetURL r)) by (vm_compute; eauto).
  destruct (invalid_method_is_500 SimpleV (Sample.up "") r Sample.start Ht)
    as (_ & Hst & Hc); [discriminate | reflexivity |].
  split; [exact Ht|]. split; [apply Hst; reflexivity | exact Hc].
Defined.

(** ** One request, at most one call *)

Section OneCall.
Import Http.
Context (E : Env).


End OneCall.


(** ** What the outbound request is made of *)



(** Where a key of the outbound request comes from. *)
Lemma outbound_key_origin (E : Env) (ctx : Context.Context) (r q : Http.Request) (k : string) :
  outbound E ctx r = Some q ->
  is_Some (Http.Header q !! k) ->
  exists name values,
    Http.Header r !! name = Some values /\
    isHopByHopHeader name = false /\
    values <> [] /\
    k = Textproto.CanonicalMIMEHeaderKey name.
Proof.
  intros Hq Hk. apply outbound_Header in Hq as [Hq _]. rewrite Hq in Hk.
  apply is_Some_copyHeaders in Hk as [Hk | (name & values & Hin & Hhop & Hv & Hkey)].
  - rewrite lookup_empty in Hk. destruct Hk as [? [=]].
  - exists name, values. split; [|auto]. apply (Range_In E ForwardLoop), Hin.
Qed.

(** X7: the forwarders add no header of their own to the outbound request:
    every key it has is the canonical form of an inbound name that is not
    hop-by-hop and has at least one value. *)
Theorem outbound_headers_come_from_inbound (E : Env) (ctx : Context.Context)
        (r q : Http.Request) (k : string) :
  outbound E ctx r = Some q ->
  is_Some (Http.Header q !! k) ->
  exists name values,
    Http.Header r !! name = Some values /\
    isHopByHopHeader name = false /\
    values <> [] /\
    k = Textproto.CanonicalMIMEHeaderKey name.
Proof. apply outbound_key_origin. Qed.

Lemma outbound_headers_come_from_inbound_witness :
  let E := Sample.up "" in
  let r := Sample.request "GET" "/api/v1/market/tickers" ""
             (<["Access-Key" := ["abc"]]> ∅) in
  exists q, outbound E Context.Background r = Some q /\
            is_Some (Http.Header q !! "Access-Key") /\
            exists name values, Http.Header r !! name = Some values /\
                                "Access-Key"%string = Textproto.CanonicalMIMEHeaderKey name.
Proof.
  intros E r.
  destruct (outbound E Context.Background r) as [q|] eqn:Hq;
    [|vm_compute in Hq; discriminate Hq].
  assert (Hk : is_Some (Http.Header q !! "Access-Key")).
  { pose proof Hq as Hq'. apply outbound_Header in Hq' as [-> _]. vm_compute. eauto. }
  exists q. split; [reflexivity|]. split; [exact Hk|].
  destruct (outbound_headers_come_from_inbound E Context.Background r q "Access-Key" Hq Hk)
    as (name & values & H1 & _ & _ & H2).
  exists name, values. split; [exact H1 | exact H2].
Defined.

(** X8: an inbound header without a value leaves no trace: when its name is
    the only one with its canonical form, the outbound request has no such
    key (a key with an empty list of values is not carried over). *)
Theorem empty_header_is_dropped (E : Env) (ctx : Context.Context) (r q : Http.Request)
        (name : string) :
  outbound E ctx r = Some q ->
  Http.Header r !! name = Some [] ->
  (forall name' values', Http.Header r !! name' = Some values' ->
     Textproto.CanonicalMIMEHeaderKey name' = Textproto.CanonicalMIMEHeaderKey name ->
     name' = name) ->
  Http.Header q !! Textproto.CanonicalMIMEHeaderKey name = None.
Proof.
  intros Hq Hname Huniq. apply eq_None_not_Some. intros Hsome.
  destruct (outbound_key_origin E ctx r q _ Hq Hsome)
    as (name' & values' & Hin & _ & Hv & Hkey).
  assert (name' = name) as -> by (apply (Huniq name' values' Hin); congruence).
  rewrite Hname in Hin. injection Hin as <-. apply Hv. reflexivity.
Qed.

Lemma empty_header_is_dropped_witness :
  let E := Sample.up "" in
  let r := Sample.request "GET" "/api/v1/market/tickers" ""
             (<["X-Empty" := []]> (<["Access-Key" := ["abc"]]> ∅)) in
  exists q, outbound E Context.Background r = Some q /\
            Http.Header r !! "X-Empty" = Some [] /\
            Http.Header q !! "X-Empty" = None /\
            Http.Header q !! "Access-Key" = Some ["abc"%string].
Proof.
  intros E r.
  destruct (outbound E Context.Background r) as [q|] eqn:Hq;
    [|vm_compute in Hq; discriminate Hq].
  exists q. split; [reflexivity|]. split; [reflexivity|]. split.
  - apply (empty_header_is_dropped E Context.Background r q "X-Empty" Hq eq_refl).
    intros name' values' Hl Hk. subst r. simpl in Hl.
    apply lookup_insert_Some in Hl as [[<- _] | [_ Hl]]; [reflexivity|].
    apply lookup_insert_Some in Hl as [[<- _] | [_ Hl]]; [discriminate Hk|].
    rewrite lookup_empty in Hl. discriminate Hl.
  - apply outbound_Header in Hq as [-> _]. vm_compute. reflexivity.
Defined.

(** ** What is logged *)

Section Logging.
Import Http.
Context (E : Env).

Lemma forwarder_Log_success v r s q resp :
  outbound E (contextOf v E r) r = Some q ->
  Do E (clientOf v) q = DoOk resp ->
  Log (forwarder v E r s)
  = Log s ++
    match v with
    | SimpleV =>
        match CopyErr resp with
        | Some err => [("❌ Failed to copy response body: " +:+ err)%string]
        | None => []
        end
        ++ [("🔗 " +:+ Method r +:+ " " +:+ Url.Path (URL r) +:+ " -> "
             +:+ match targetURL r with Some u => URLString E u | None => "" end
             +:+ " (Status: " +:+ pretty (StatusCode resp) +:+ ")")%string]
    | OptimizedV =>
        match CopyErr resp with
        | Some err =>
            if String.eqb (Getenv E "DEBUG") "true"
            then [("❌ Failed to copy response body: " +:+ err)%string] else []
        | None => []
        end
    end.
Proof.
  intros Hq Hdo. destruct v; simpl in *.
  - unfold Simple.blofinProxy, NewRequest. unfold outbound in Hq.
    destruct (targetURL r) as [u|]; simpl in *; [|discriminate].
    destruct (NewRequestWithContext _ _ _ _) as [q0|]; simpl in *; [|discriminate].
    injection Hq as <-. rewrite Hdo.
    destruct (CopyErr resp); simpl; [rewrite <- app_assoc|]; reflexivity.
  - unfold Optimized.blofinProxyOptimized. unfold outbound in Hq.
    destruct (targetURL r) as [u|]; simpl in *; [|discriminate].
    destruct (NewRequestWithContext _ _ _ _) as [q0|]; simpl in *; [|discriminate].
    injection Hq as <-. rewrite Hdo.
    destruct (CopyErr resp); [destruct (String.eqb _ "true")|]; simpl;
      rewrite ?app_nil_r; reflexivity.
Qed.



End Logging.

(** X9: when the copy of the upstream's body breaks off, the status and the
    bytes copied so far have been sent and stay sent; the simple forwarder
    logs the error and then its line for the request, the optimized
    forwarder logs the error exactly when DEBUG is "true" and nothing
    else. *)
Theorem copy_failure_is_logged (v : Variant) (E : Env) (r : Http.Request) (s : State)
        (q : Http.Request) (resp : Http.Response) (err : string) :
  outbound E (contextOf v E r) r = Some q ->
  Do E (clientOf v) q = Http.DoOk resp ->
  Http.CopyErr resp = Some err ->
  Http.Wrote (W s) = None ->
  statusSent (W (forwarder v E r s)) = Some (Http.StatusCode resp) /\
  Http.Written (W (forwarder v E r s)) = (Http.Written (W s) +:+ Http.RespBody resp)%string /\
  match v with
  | SimpleV =>
      exists line,
        Log (forwarder v E r s)
        = Log s ++ [("❌ Failed to copy response body: " +:+ err)%string; line]
  | OptimizedV =>
      Log (forwarder v E r s)
      = Log s ++ (if String.eqb (Getenv E "DEBUG") "true"
                  then [("❌ Failed to copy response body: " +:+ err)%string] else [])
  end.
Proof.
  intros Hq Hdo Herr Hw.
  rewrite (forwarder_W_success E v r s q resp Hq Hdo).
  destruct (relayResponse_fresh E resp (W s) Hw) as [H1 H2].
  split; [unfold statusSent; rewrite H1; reflexivity|]. split; [exact H2|].
  rewrite (forwarder_Log_success E v r s q resp Hq Hdo), Herr.
  destruct v; [eexists; reflexivity | reflexivity].
Qed.

Lemma copy_failure_is_logged_witness :
  let E := Sample.answering Sample.brokenResponse in
  let r := Sample.request "GET" "/api/v1/market/tickers" "" ∅ in
  exists q,
    outbound E (contextOf OptimizedV E r) r = Some q /\
    statusSent (W (forwarder OptimizedV E r Sample.start)) = Some 200%Z /\
    Http.Written (W (forwarder OptimizedV E r Sample.start)) = "{"%string /\
    Log (forwarder OptimizedV E r Sample.start) = [].
Proof.
  intros E r.
  destruct (outbound E (contextOf OptimizedV E r) r) as [q|] eqn:Hq;
    [|vm_compute in Hq; discriminate Hq].
  exists q. split; [reflexivity|].
  destruct (copy_failure_is_logged OptimizedV E r Sample.start q Sample.brokenResponse
              "unexpected EOF" Hq eq_refl eq_refl eq_refl) as (H1 & H2 & H3).
  split; [exact H1|]. split; [exact H2 | exact H3].
Defined.



(** ** The routes of the two servers *)

Section Routes.
Import Strings Http.
Context (E : Env).

(** The simple mux on a rooted path: the health handler for "/health", the
    root handler for everything else. *)
Lemma Simple_handler_exact host path :
  HasPrefix path "/" = true ->
  Mux.handler (Simple.mux E) host path
  = corsMiddleware (if String.eqb path "/health" then Simple.healthHandler E
                    else Simple.rootHandler E).
Proof.
  intros Hp. unfold Mux.handler, Mux.match_.
  change (Mux.hosts (Simple.mux E)) with false. cbv iota.
  rewrite Simple_mux_lookup. repeat case_decide; subst; simpl; try reflexivity.
  change (Mux.es (Simple.mux E))
    with [Mux.mkEntry "/" (corsMiddleware (Simple.rootHandler E))].
  cbn [List.find Mux.pattern]. rewrite Hp. simpl.
  destruct (String.eqb path "/health") eqn:He; [|reflexivity].
  apply String.eqb_eq in He. contradiction.
Qed.

(** The simple server on a canonical path. *)
Lemma Simple_serve_exact r s :
  String.eqb (RequestURI r) "*" = false ->
  PathPkg.cleanPath (Url.Path (URL r)) = Url.Path (URL r) ->
  Simple.serve E r s
  = onWriter finishRequest
      (corsMiddleware (if String.eqb (Url.Path (URL r)) "/health"
                       then Simple.healthHandler E else Simple.rootHandler E) r s).
Proof.
  intros Huri Hclean.
  assert (Hp : HasPrefix (Url.Path (URL r)) "/" = true)
    by (rewrite <- Hclean; apply cleanPath_rooted).
  unfold Simple.serve, Mux.serverHandler, Mux.ServeHTTP. rewrite Huri. simpl.
  unfold Mux.Handler_. rewrite !Simple_shouldRedirect, Hclean, String.eqb_refl. simpl.
  rewrite !Simple_handler_exact by exact Hp.
  destruct (String.eqb (Method r) "CONNECT"); reflexivity.
Qed.




(** A redirect written on a fresh writer. *)
Lemma Redirect_fresh r u code :
  exists hdr,
    Wrote (Mux.Redirect E r u code newWriter) = Some (code, hdr) /\
    hdr !! "Location" = Some [RedirectLocation E u] /\
    hdr !! "Access-Control-Allow-Origin" = None.
Proof.
  unfold Mux.Redirect.
  change (bool_decide (is_Some (WHeader newWriter !! "Content-Type"))) with false.
  simpl.
  destruct (String.eqb (Method r) "GET"); simpl; [eexists; split; [reflexivity|split; reflexivity]|].
  destruct (String.eqb (Method r) "HEAD"); simpl; eexists; (split; [reflexivity|split; reflexivity]).
Qed.

End Routes.

(** X11: the routes of the simple server.  A request with a canonical path
    that does not begin with "/api/", and with a method other than OPTIONS,
    is answered 200 when the path is "/" or "/health" and 404 with the body
    "404 page not found" otherwise; no call is made to the upstream. *)
Theorem simple_routes (E : Env) (r : Http.Request) (s : State) :
  String.eqb (Http.RequestURI r) "*" = false ->
  PathPkg.cleanPath (Url.Path (Http.URL r)) = Url.Path (Http.URL r) ->
  String.eqb (Http.Method r) "OPTIONS" = false ->
  Strings.HasPrefix (Url.Path (Http.URL r)) "/api/" = false ->
  W s = Http.newWriter ->
  let known := String.eqb (Url.Path (Http.URL r)) "/"
               || String.eqb (Url.Path (Http.URL r)) "/health" in
  statusSent (W (Simple.serve E r s))
  = Some (if known then Http.StatusOK else Http.StatusNotFound) /\
  (known = false -> Http.Written (W (Simple.serve E r s)) = ("404 page not found" +:+ LF)%string) /\
  Calls (Simple.serve E r s) = Calls s.
Proof.
  intros Huri Hclean Hm Hp Hw known. subst known.
  rewrite Simple_serve_exact by assumption.
  rewrite corsMiddleware_other by exact Hm.
  destruct s as [w count log calls]. simpl in Hw. subst w.
  destruct (String.eqb (Url.Path (Http.URL r)) "/health") eqn:Hh.
  - rewrite orb_true_r. simpl. repeat split. discriminate.
  - rewrite orb_false_r. unfold Simple.rootHandler. rewrite Hp.
    destruct (String.eqb (Url.Path (Http.URL r)) "/"); simpl.
    + repeat split. discriminate.
    + repeat split.
Qed.

Lemma simple_routes_witness :
  let r := Sample.request "GET" "/favicon.ico" "" ∅ in
  statusSent (W (Simple.serve (Sample.up "") r Sample.start)) = Some 404%Z /\
  Calls (Simple.serve (Sample.up "") r Sample.start) = [].
Proof.
  intros r.
  destruct (simple_routes (Sample.up "") r Sample.start eq_refl eq_refl eq_refl eq_refl eq_refl)
    as (H1 & _ & H3).
  split; [exact H1 | exact H3].
Defined.



(** X13: the optimized server answers the path "/api", whatever the method
    and the host, with a redirect to "/api/" (status 301, the query kept),
    because "/api/" is registered and "/api" is not; the redirect has no
    cross-origin header. *)
Theorem optimized_api_is_redirected (E : Env) (r : Http.Request) (s : State) :
  Url.Path (Http.URL r) = "/api"%string ->
  String.eqb (Http.RequestURI r) "*" = false ->
  W s = Http.newWriter ->
  exists hdr,
    Http.Wrote (W (Optimized.serve E r s)) = Some (Http.StatusMovedPermanently, hdr) /\
    hdr !! "Location"
    = Some [RedirectLocation E (Mux.redirectURL "/api/" (Url.RawQuery (Http.URL r)))] /\
    hdr !! "Access-Control-Allow-Origin" = None.
Proof.
  intros Hpath Huri Hw.
  assert (Hred : forall host, Mux.shouldRedirectRLocked (Optimized.mux E) host "/api" = true).
  { intros host. unfold Mux.shouldRedirectRLocked.
    assert (Hh : bool_decide (is_Some (Mux.m (Optimized.mux E) !! (host +:+ "/api")%string))
                 = false).
    { apply bool_decide_eq_false. rewrite Optimized_mux_lookup. intros [e He].
      pose proof (lastByte_app_byte (host +:+ "/ap") "i") as Hl.
      assert (Happ : ((host +:+ "/ap") +:+ "i")%string = (host +:+ "/api")%string).
      { clear. induction host as [|c host IH]; [reflexivity|].
        rewrite !append_cons, IH. reflexivity. }
      rewrite Happ in Hl.
      repeat case_decide; try discriminate He;
        match goal with H : (host +:+ "/api")%string = _ |- _ => rewrite H in Hl end;
        discriminate Hl. }
    cbn [List.existsb]. rewrite Hh. reflexivity. }
  unfold Optimized.serve, Mux.serverHandler, Mux.ServeHTTP. rewrite Huri. simpl.
  unfold Mux.Handler_. rewrite Hpath.
  change (PathPkg.cleanPath "/api") with "/api"%string. rewrite !Hred.
  destruct (Redirect_fresh E r (Mux.redirectURL "/api/" (Url.RawQuery (Http.URL r)))
              Http.StatusMovedPermanently) as (hdr & H1 & H2 & H3).
  exists hdr. split; [|auto].
  destruct s as [w count log calls]. simpl in Hw. subst w.
  change ("/api" +:+ "/")%string with "/api/"%string.
  destruct (String.eqb (Http.Method r) "CONNECT"); cbn [W onWriter Mux.RedirectHandler];
    unfold Http.finishRequest, Http.WriteHeader; rewrite H1; exact H1.
Qed.

Lemma optimized_api_is_redirected_witness :
  let r := Sample.request "GET" "/api" "a=1" ∅ in
  exists hdr,
    Http.Wrote (W (Optimized.serve (Sample.up "") r Sample.start)) = Some (301%Z, hdr) /\
    hdr !! "Location" = Some ["/api/?a=1"%string].
Proof.
  intros r.
  destruct (optimized_api_is_redirected (Sample.up "") r Sample.start eq_refl eq_refl eq_refl)
    as (hdr & H1 & H2 & _).
  exists hdr. split; [exact H1 | exact H2].
Defined.



(** ** The two variants against each other *)

Section Variants.
Import Http.
Context (E : Env).

(** Whether an outbound request can be built does not depend on the
    context it is given. *)
Lemma outbound_context ctx ctx' r :
  outbound E ctx r = None <-> outbound E ctx' r = None.
Proof.
  unfold outbound, NewRequestWithContext.
  destruct (targetURL r) as [u|]; simpl; [|tauto].
  destruct (negb _); simpl; [tauto|].
  destruct (Url.Parse _); simpl; [split; discriminate | tauto].
Qed.

End Variants.

(** X15: the optimized forwarder answers a request exactly as the simple
    one does whenever the upstream treats their two calls alike: the same
    requests get 400 and 500, and when both call, the same result of the
    call gives the same response.  (The two differ in the context and the
    client of the call, in the counter and in what they log.) *)
Theorem variants_answer_alike (E : Env) (r : Http.Request) (s : State) :
  (forall qs qo,
      outbound E (contextOf SimpleV E r) r = Some qs ->
      outbound E (contextOf OptimizedV E r) r = Some qo ->
      Do E (clientOf SimpleV) qs = Do E (clientOf OptimizedV) qo) ->
  W (Simple.blofinProxy E r s) = W (Optimized.blofinProxyOptimized E r s).
Proof.
  intros Hdo.
  rewrite (forwarder_W E SimpleV), (forwarder_W E OptimizedV). unfold answer.
  destruct (targetURL r) as [u|]; [|reflexivity].
  destruct (outbound E (contextOf SimpleV E r) r) as [qs|] eqn:Hs.
  - destruct (outbound E (contextOf OptimizedV E r) r) as [qo|] eqn:Ho.
    + rewrite (Hdo qs qo eq_refl eq_refl). reflexivity.
    + apply (outbound_context E _ (contextOf SimpleV E r)) in Ho. congruence.
  - apply (outbound_context E _ (contextOf OptimizedV E r)) in Hs. rewrite Hs. reflexivity.
Qed.

Lemma variants_answer_alike_witness :
  let E := Sample.up "" in
  let r := Sample.request "GET" "/api/v1/market/tickers" "instId=BTC-USDT" ∅ in
  W (Simple.blofinProxy E r Sample.start) = W (Optimized.blofinProxyOptimized E r Sample.start) /\
  statusSent (W (Optimized.blofinProxyOptimized E r Sample.start)) = Some 200%Z.
Proof.
  intros E r. split; [|vm_compute; reflexivity].
  apply (variants_answer_alike E r Sample.start). intros qs qo _ _. reflexivity.
Defined.

(** ** The counter, request by request *)

Section Counter.
Import Http.
Context (E : Env).

Lemma requestCount_corsMiddleware_quiet (next : Handler) r s :
  (forall s', requestCount (next r s') = requestCount s') ->
  requestCount (corsMiddleware next r s) = requestCount s.
Proof.
  intros Hnext. unfold corsMiddleware.
  destruct (String.eqb (Method r) "OPTIONS"); [reflexivity|]. rewrite Hnext. reflexivity.
Qed.

Lemma requestCount_Optimized_proxy r s :
  requestCount (Optimized.blofinProxyOptimized E r s) = wrap64 (requestCount s + 1).
Proof.
  unfold Optimized.blofinProxyOptimized.
  destruct (targetURL r) as [u|]; simpl; [|reflexivity].
  destruct (NewRequestWithContext _ _ _ _) as [q|]; simpl; [|reflexivity].
  destruct (Do E _ _) as [resp|err]; simpl.
  - destruct (CopyErr resp); [destruct (String.eqb _ _)|]; reflexivity.
  - destruct (String.eqb _ _); reflexivity.
Qed.

(** The optimized mux gives every path that begins with "/api/" to the
    forwarder. *)
Lemma Optimized_handler_api host path :
  Strings.HasPrefix path "/api/" = true ->
  Mux.handler (Optimized.mux E) host path
  = corsMiddleware (Optimized.blofinProxyOptimized E).
Proof.
  intros Hp. unfold Mux.handler, Mux.match_.
  change (Mux.hosts (Optimized.mux E)) with false. cbv iota.
  rewrite Optimized_mux_lookup. repeat case_decide; subst; try discriminate Hp;
    try reflexivity.
  change (Mux.es (Optimized.mux E))
    with [Mux.mkEntry "/api/" (corsMiddleware (Optimized.blofinProxyOptimized E))].
  cbn [List.find Mux.pattern]. rewrite Hp. reflexivity.
Qed.

Lemma wrap64_in_range z :
  (- 2 ^ 63 <= z < 2 ^ 63)%Z -> wrap64 z = z.
Proof.
  intros Hz. unfold wrap64. rewrite Z.mod_small by lia. lia.
Qed.

End Counter.

(** X16: a request under "/api/" that the optimized server hands to its
    forwarder (canonical path, any method but OPTIONS) raises the counter
    by exactly one, whatever the outcome, as long as the counter is below
    the largest [int64]; at the largest [int64] the increment wraps to the
    smallest. *)
Theorem proxied_request_is_counted (E : Env) (r : Http.Request) (s : State) :
  String.eqb (Http.RequestURI r) "*" = false ->
  PathPkg.cleanPath (Url.Path (Http.URL r)) = Url.Path (Http.URL r) ->
  Strings.HasPrefix (Url.Path (Http.URL r)) "/api/" = true ->
  String.eqb (Http.Method r) "OPTIONS" = false ->
  (- 2 ^ 63 <= requestCount s < 2 ^ 63)%Z ->
  requestCount (Optimized.serve E r s)
  = (if (requestCount s =? 2 ^ 63 - 1)%Z then - 2 ^ 63 else requestCount s + 1)%Z.
Proof.
  intros Huri Hclean Hp Hm Hrange.
  assert (Hroute : Optimized.serve E r s
                   = onWriter Http.finishRequest
                       (corsMiddleware (Optimized.blofinProxyOptimized E) r s)).
  { unfold Optimized.serve, Mux.serverHandler, Mux.ServeHTTP. rewrite Huri. simpl.
    unfold Mux.Handler_. rewrite Hclean, String.eqb_refl.
    rewrite !Optimized_shouldRedirect by (left; exact Hp). simpl.
    rewrite !Optimized_handler_api by exact Hp.
    destruct (String.eqb (Http.Method r) "CONNECT"); reflexivity. }
  rewrite Hroute. simpl. rewrite corsMiddleware_other by exact Hm.
  rewrite requestCount_Optimized_proxy. simpl.
  destruct (Z.eqb_spec (requestCount s) (2 ^ 63 - 1)) as [-> | Hne].
  - reflexivity.
  - apply wrap64_in_range. lia.
Qed.

Lemma proxied_request_is_counted_witness :
  let r := Sample.request "GET" "/api/v1/market/tickers" "" ∅ in
  requestCount (Optimized.serve (Sample.down "") r Sample.start) = 1%Z /\
  requestCount (Optimized.serve (Sample.down "") r
                  (mkState Http.newWriter (2 ^ 63 - 1) [] [])) = (- 2 ^ 63)%Z.
Proof.
  intros r. split.
  - exact (proxied_request_is_counted (Sample.down "") r Sample.start
             eq_refl eq_refl eq_refl eq_refl ltac:(simpl; lia)).
  - exact (proxied_request_is_counted (Sample.down "") r
             (mkState Http.newWriter (2 ^ 63 - 1) [] [])
             eq_refl eq_refl eq_refl eq_refl ltac:(simpl; lia)).
Defined.

Section CounterSteps.
Import Http.
Context (E : Env).

Lemma requestCount_Simple_proxy r s :
  requestCount (Simple.blofinProxy E r s) = requestCount s.
Proof.
  unfold Simple.blofinProxy.
  destruct (targetURL r) as [u|]; simpl; [|reflexivity].
  destruct (NewRequest _ _ _) as [q|]; simpl; [|reflexivity].
  destruct (Do E _ _) as [resp|err]; simpl; [|reflexivity].
  destruct (CopyErr resp); reflexivity.
Qed.

Lemma requestCount_Simple_root r s :
  requestCount (Simple.rootHandler E r s) = requestCount s.
Proof.
  unfold Simple.rootHandler.
  destruct (String.eqb _ "/"); [reflexivity|].
  destruct (Strings.HasPrefix _ _); [|reflexivity].
  rewrite requestCount_Simple_proxy. reflexivity.
Qed.

End CounterSteps.

(** X17: no request moves the counter by more than one increment.  The
    optimized server leaves it as it is or increments it once; the simple
    server never touches it. *)
Theorem counter_moves_by_at_most_one (E : Env) (r : Http.Request) (s : State) :
  (requestCount (Optimized.serve E r s) = requestCount s \/
   requestCount (Optimized.serve E r s) = wrap64 (requestCount s + 1)) /\
  requestCount (Simple.serve E r s) = requestCount s.
Proof.
  split.
  - unfold Optimized.serve, Mux.serverHandler.
    destruct (_ && _); [left; reflexivity|].
    unfold Mux.ServeHTTP. destruct (String.eqb (Http.RequestURI r) "*");
      [left; destruct (Http.ProtoAtLeast 1 1 r); reflexivity|].
    destruct (Handler_cases E (Optimized.mux E) r) as [[u ->] | [host ->]];
      [left; reflexivity|].
    destruct (Optimized_handler_cases E host (Url.Path (Http.URL r)))
      as [[-> _] | [-> | [-> | ->]]]; simpl.
    + unfold corsMiddleware. destruct (String.eqb (Http.Method r) "OPTIONS");
        [left; reflexivity | right; rewrite requestCount_Optimized_proxy; reflexivity].
    + left. apply requestCount_corsMiddleware_quiet. reflexivity.
    + left. apply requestCount_corsMiddleware_quiet. reflexivity.
    + left. reflexivity.
  - unfold Simple.serve, Mux.serverHandler.
    destruct (_ && _); [reflexivity|].
    unfold Mux.ServeHTTP. destruct (String.eqb (Http.RequestURI r) "*");
      [destruct (Http.ProtoAtLeast 1 1 r); reflexivity|].
    destruct (Handler_cases E (Simple.mux E) r) as [[u ->] | [host ->]]; [reflexivity|].
    destruct (Simple_handler_cases E host (Url.Path (Http.URL r))) as [-> | [-> | ->]]; simpl.
    + apply requestCount_corsMiddleware_quiet. intros s'. apply requestCount_Simple_root.
    + apply requestCount_corsMiddleware_quiet. reflexivity.
    + reflexivity.
Qed.

(** ** The health endpoint *)

(** X18: the optimized server answers a request for "/health" (any method
    but OPTIONS) with 200, the content type application/json and a JSON
    object that reports the current value of the counter as
    "requests_served"; reading it changes neither the counter nor anything
    else but the response, and makes no call to the upstream. *)
Theorem health_reports_counter (E : Env) (r : Http.Request) (s : State) :
  Url.Path (Http.URL r) = "/health"%string ->
  String.eqb (Http.RequestURI r) "*" = false ->
  String.eqb (Http.Method r) "OPTIONS" = false ->
  W s = Http.newWriter ->
  let s' := Optimized.serve E r s in
  statusSent (W s') = Some Http.StatusOK /\
  Http.Written (W s')
  = ("{" +:+ jsonString "status" +:+ ":" +:+ jsonString "ok" +:+ ","
     +:+ jsonString "timestamp" +:+ ":" +:+ jsonString (Timestamp E) +:+ ","
     +:+ jsonString "requests_served" +:+ ":" +:+ pretty (requestCount s) +:+ ","
     +:+ jsonString "goroutines" +:+ ":" +:+ pretty (NumGoroutine E) +:+ "}")%string /\
  (exists hdr, headerSent (W s') = Some hdr /\
               hdr !! "Content-Type" = Some ["application/json"%string] /\
               hdr !! "Access-Control-Allow-Origin" = Some ["*"%string]) /\
  requestCount s' = requestCount s /\ Calls s' = Calls s /\ Log s' = Log s.
Proof.
  intros Hpath Huri Hm Hw s'. subst s'.
  assert (Hroute : Optimized.serve E r s
                   = onWriter Http.finishRequest
                       (corsMiddleware (Optimized.healthHandler E) r s)).
  { unfold Optimized.serve, Mux.serverHandler, Mux.ServeHTTP. rewrite Huri. simpl.
    unfold Mux.Handler_. rewrite Hpath.
    change (PathPkg.cleanPath "/health") with "/health"%string.
    rewrite !Optimized_shouldRedirect by (right; left; reflexivity).
    destruct (String.eqb (Http.Method r) "CONNECT"); reflexivity. }
  rewrite Hroute, corsMiddleware_other by exact Hm.
  destruct s as [w count log calls]. simpl in Hw. subst w. simpl.
  split; [reflexivity|]. split; [reflexivity|].
  split; [eexists; split; [reflexivity|split; reflexivity]|].
  auto.
Qed.

Lemma health_reports_counter_witness :
  let r := Sample.request "GET" "/health" "" ∅ in
  let s := mkState Http.newWriter 42 [] [] in
  statusSent (W (Optimized.serve (Sample.up "") r s)) = Some 200%Z /\
  requestCount (Optimized.serve (Sample.up "") r s) = 42%Z.
Proof.
  intros r s.
  destruct (health_reports_counter (Sample.up "") r s eq_refl eq_refl eq_refl eq_refl)
    as (H1 & _ & _ & H2 & _).
  split; [exact H1 | exact H2].
Defined.

(** ** Paths that are read differently as part of a URL *)

Section ReadAgain.
Import Strings Url.

Lemma append_assoc a b c : ((a +:+ b) +:+ c)%string = (a +:+ (b +:+ c))%string.
Proof. induction a as [|x a IH]; [reflexivity|]. rewrite !append_cons, IH. reflexivity. Qed.

Lemma lastByte_Count s c : lastByte s = Some c -> (1 <= Count s c)%nat.
Proof.
  induction s as [|a s IH]; [discriminate|]. simpl.
  destruct s as [|b s'].
  - intros [= ->]. rewrite Ascii.eqb_refl. simpl. lia.
  - intros H. apply IH in H. lia.
Qed.

Lemma lastByte_append a c t :
  lastByte (a +:+ String c t) = lastByte (String c t).
Proof.
  induction a as [|x a IH]; [reflexivity|]. rewrite append_cons.
  change (lastByte (String x (a +:+ String c t)))
    with (match (a +:+ String c t)%string with
          | EmptyString => Some x
          | String _ _ => lastByte (a +:+ String c t)
          end).
  destruct (a +:+ String c t)%string eqn:Hs; [destruct a; discriminate Hs|].
  exact IH.
Qed.

Lemma dropLast_app_byte a c : dropLast (a +:+ String c EmptyString) = a.
Proof.
  induction a as [|x a IH]; [reflexivity|]. rewrite append_cons.
  change (dropLast (String x (a +:+ String c "")))
    with (match (a +:+ String c "")%string with
          | EmptyString => EmptyString
          | String _ _ => String x (dropLast (a +:+ String c ""))
          end).
  destruct (a +:+ String c "")%string eqn:Hs; [destruct a; discriminate Hs|].
  rewrite IH. reflexivity.
Qed.

(** [parse] on the base followed by a safe rooted path, a question mark and
    more: the path ends at the question mark. *)
Lemma parse_question p t :
  urlSafe p = true -> stringContainsCTLByte t = false ->
  exists force rawQuery,
    parse (BLOFIN_API_BASE +:+ String "/" (p +:+ String "?" t))
    = Some (mkURL "https" "" "openapi.blofin.com" (String "/" p) force rawQuery "" false).
Proof.
  intros Hs Ht. destruct (urlSafe_spec p Hs) as (Hctl & Hhash & Hq & Hpct).
  unfold parse.
  assert (H1 : stringContainsCTLByte (BLOFIN_API_BASE +:+ String "/" (p +:+ String "?" t))
               = false).
  { unfold stringContainsCTLByte in *. rewrite existsb_append. simpl.
    rewrite existsb_append. simpl. rewrite Hctl, Ht. reflexivity. }
  rewrite H1.
  change (BLOFIN_API_BASE +:+ String "/" (p +:+ String "?" t))
    with ("https" +:+ String ":" ("//openapi.blofin.com" +:+ String "/" (p +:+ String "?" t))).
  assert (H2 : String.eqb ("https" +:+ String ":"
                             ("//openapi.blofin.com" +:+ String "/" (p +:+ String "?" t)))
                          "*" = false) by reflexivity.
  rewrite H2.
  unfold getScheme. rewrite getScheme_loop_letters by (try reflexivity; simpl; lia).
  set (front := ("//openapi.blofin.com" +:+ String "/" p)%string).
  replace ("//openapi.blofin.com" +:+ String "/" (p +:+ String "?" t))%string
    with (front +:+ String "?" t)%string
    by (subst front; rewrite append_assoc; reflexivity).
  assert (Hfq : Count front "?" = 0%nat).
  { subst front. rewrite Count_append. simpl. exact Hq. }
  assert (Hp1 : HasPrefix front "/" = true) by reflexivity.
  assert (Hp2 : HasPrefix front "//" = true) by reflexivity.
  assert (Hauth : Cut (dropBytes 2 front) "/" = ("openapi.blofin.com"%string, p, true)).
  { subst front.
    change (dropBytes 2 ("//openapi.blofin.com" +:+ String "/" p))
      with ("openapi.blofin.com" +:+ String "/" p).
    apply Cut_found. reflexivity. }
  assert (Hsplit : exists force rawQuery,
             (if bool_decide (lastByte (front +:+ String "?" t) = Some "?"%char)
                 && Nat.eqb (Count (front +:+ String "?" t) "?") 1
              then (dropLast (front +:+ String "?" t), true, EmptyString)
              else let '(before, after, _) := Cut (front +:+ String "?" t) "?" in
                   (before, false, after))
             = (front, force, rawQuery)).
  { rewrite Cut_found by exact Hfq.
    destruct (_ && _) eqn:Hc; [|eauto].
    apply andb_true_iff in Hc as [Hl Hn].
    apply bool_decide_eq_true in Hl. apply Nat.eqb_eq in Hn.
    rewrite Count_append, Hfq in Hn. simpl in Hn.
    destruct t as [|c t]; [rewrite dropLast_app_byte; eauto|].
    exfalso. rewrite lastByte_append in Hl.
    change (lastByte (String "?" (String c t))) with (lastByte (String c t)) in Hl.
    apply lastByte_Count in Hl. lia. }
  destruct Hsplit as (force & rawQuery & Hsplit).
  clearbody front.
  cbn [mbind option_bind]. rewrite Hsplit, Hp1, Hp2, Hauth.
  change (ToLower ("" +:+ "https")) with "https"%string.
  cbn -[unescape parseAuthority].
  change (parseAuthority "openapi.blofin.com") with (Some "openapi.blofin.com"%string).
  rewrite unescape_plain by (simpl; exact Hpct).
  eauto.
Qed.

End ReadAgain.

(** X19: the inbound path is read a second time as part of a URL, so a '#'
    in it (sent as %23) ends the upstream path: for the inbound path "/" p
    "#" t, with p free of control bytes, '#', '?' and '%', the target URL
    has the path "/" p only, and t, unescaped, becomes its fragment. *)
Theorem hash_in_path_cuts_target (r : Http.Request) (p t f : string) :
  Url.Path (Http.URL r) = String "/" (p +:+ String "#" t) ->
  urlSafe p = true ->
  Url.unescape t = Some f ->
  targetURL r
  = Some (Url.mkURL "https" "" "openapi.blofin.com" (String "/" p) false
                    (Url.RawQuery (Http.URL r)) f false).
Proof.
  intros Hp Hs Hf. unfold targetURL, Url.Parse. rewrite Hp.
  replace (BLOFIN_API_BASE +:+ String "/" (p +:+ String "#" t))%string
    with ((BLOFIN_API_BASE +:+ String "/" p) +:+ String "#" t)%string
    by (rewrite append_assoc; reflexivity).
  rewrite Cut_found.
  - rewrite parse_target by exact Hs. simpl. rewrite Hf. reflexivity.
  - destruct (urlSafe_spec p Hs) as (_ & Hhash & _ & _).
    rewrite Count_append. simpl. exact Hhash.
Qed.

Lemma hash_in_path_cuts_target_witness :
  let r := Sample.request "GET" "/api/v1/asset#balances" "" ∅ in
  Url.Path <$> targetURL r = Some "/api/v1/asset"%string.
Proof.
  intros r.
  rewrite (hash_in_path_cuts_target r "api/v1/asset" "balances" "balances"
             eq_refl eq_refl eq_refl).
  reflexivity.
Defined.

(** X20: likewise a '?' in the inbound path (sent as %3F) ends the upstream
    path: for the inbound path "/" p "?" t, with p as before and t free of
    control bytes and '#', the target URL has the path "/" p; what follows
    the '?' is dropped, for the raw query is then set to the inbound
    one. *)
Theorem question_mark_in_path_cuts_target (r : Http.Request) (p t : string) :
  Url.Path (Http.URL r) = String "/" (p +:+ String "?" t) ->
  urlSafe p = true ->
  Url.stringContainsCTLByte t = false ->
  Strings.Count t "#" = 0%nat ->
  exists u,
    targetURL r = Some u /\
    Url.Path u = String "/" p /\
    Url.RawQuery u = Url.RawQuery (Http.URL r) /\
    Url.Host u = "openapi.blofin.com"%string.
Proof.
  intros Hp Hs Ht Hh. unfold targetURL, Url.Parse. rewrite Hp.
  destruct (urlSafe_spec p Hs) as (_ & Hhash & _ & _).
  rewrite Cut_absent.
  - destruct (parse_question p t Hs Ht) as (force & rawQuery & ->). simpl.
    eexists. split; [reflexivity|]. auto.
  - rewrite Count_append. simpl. rewrite Count_append. simpl. rewrite Hhash, Hh. reflexivity.
Qed.

Lemma question_mark_in_path_cuts_target_witness :
  let r := Sample.request "GET" "/api/v1/asset?admin=1" "instId=BTC-USDT" ∅ in
  exists u, targetURL r = Some u /\
            Url.Path u = "/api/v1/asset"%string /\
            Url.RawQuery u = "instId=BTC-USDT"%string.
Proof.
  intros r.
  destruct (question_mark_in_path_cuts_target r "api/v1/asset" "admin=1"
              eq_refl eq_refl eq_refl eq_refl) as (u & H1 & H2 & H3 & _).
  exists u. split; [exact H1|]. split; [exact H2 | exact H3].
Defined.

(** X21: and a percent escape in the inbound path, which net/http has
    already decoded once, is decoded again: for the inbound path "/" p, with
    p free of control bytes, '#' and '?', the target URL has the path "/"
    followed by p unescaped ("%41" becomes "A", "%2F" a slash). *)
Theorem path_is_unescaped_again (r : Http.Request) (p p' : string) :
  Url.Path (Http.URL r) = String "/" p ->
  Url.stringContainsCTLByte p = false ->
  Strings.Count p "?" = 0%nat ->
  Strings.Count p "#" = 0%nat ->
  Url.unescape p = Some p' ->
  targetURL r
  = Some (Url.mkURL "https" "" "openapi.blofin.com" (String "/" p') false
                    (Url.RawQuery (Http.URL r)) "" false).
Proof.
  intros Hp Hctl Hq Hh Hun. unfold targetURL, Url.Parse. rewrite Hp.
  rewrite Cut_absent by (rewrite Count_append; simpl; exact Hh).
  rewrite parse_rooted by assumption.
  simpl. rewrite Hun. reflexivity.
Qed.

Lemma path_is_unescaped_again_witness :
  let r := Sample.request "GET" "/api/v1/a%2Fb" "" ∅ in
  Url.Path <$> targetURL r = Some "/api/v1/a/b"%string.
Proof.
  intros r.
  rewrite (path_is_unescaped_again r "api/v1/a%2Fb" "api/v1/a/b"
             eq_refl eq_refl eq_refl eq_refl eq_refl).
  reflexivity.
Defined.
